(** * Daily C-arm Market Intelligence: the retrying completion client and
      the deduplicating topic search aggregator.

    Shallow embedding of [src/utils/githubModels.py] ([GitHubModelsClient])
    and [src/utils/webSearch.py] ([WebSearchClient]).  Python code that
    performs I/O, sleeps, logs or raises is written in a state-and-exception
    monad over an explicit world; the dictionaries of strings handled by the
    search client are finite maps, the [seen_links] set is a finite set. *)

From Stdlib Require Import ZArith QArith Sorted.
From stdpp Require Import base option list gmap strings pretty.

Set Warnings "-register-all,-clear-no-such-hyp".

Local Open Scope string_scope.
Local Open Scope list_scope.
Local Open Scope Z_scope.

(** ** Python computations: state threading plus exceptions *)

Module Py.

(** A computation over a world [W] that either raises an [E] or returns
    an [A]; the world it leaves behind is kept in both cases. *)
Definition M (W E A : Type) : Type := W → (E + A) * W.

Section ops.
Context {W E : Type}.

Definition ret {A} (a : A) : M W E A := λ w, (inr a, w).

Definition bind {A B} (m : M W E A) (k : A → M W E B) : M W E B :=
  λ w, match m w with
       | (inr a, w') => k a w'
       | (inl e, w') => (inl e, w')
       end.

Definition raise {A} (e : E) : M W E A := λ w, (inl e, w).

(** [try: body except e: handler e] *)
Definition try_except {A} (body : M W E A) (handler : E → M W E A)
  : M W E A :=
  λ w, match body w with
       | (inr a, w') => (inr a, w')
       | (inl e, w') => handler e w'
       end.

Definition modify (f : W → W) : M W E unit := λ w, (inr tt, f w).

Definition lift_result {A} (r : E + A) : M W E A := λ w, (r, w).
End ops.

Module Import Notations.
Declare Scope py_scope.
Delimit Scope py_scope with py.
Notation "'let*' x := m 'in' k" := (bind m (λ x, k))
  (at level 10, x name, m at level 100, k at level 200) : py_scope.
End Notations.

(** [bool(s)] for a string: only the empty string is falsy. *)
Definition truthy (s : string) : bool :=
  match s with
  | EmptyString => false
  | String _ _ => true
  end.

(** [range(n)] *)
Definition range (n : Z) : list Z := Z.of_nat <$> seq 0 (Z.to_nat n).

End Py.

Import Py.Notations.
Local Open Scope py_scope.

(** ** [utils/githubModels.py] *)

Module GitHubModels.

(** *** JSON values, as [response.json()] hands them to Python *)

Inductive json : Type :=
| JNull
| JBool (b : bool)
| JInt (n : Z)
| JFloat (q : Q)
| JStr (s : string)
| JArr (items : list json)
| JObj (fields : list (string * json)).

(** Key of a failed dictionary subscript. *)
Inductive pykey : Type :=
| KStr (s : string)
| KInt (n : Z).

Record response : Type := Response {
  status_code : Z;
  (** the parsed body, [None] when the body is not JSON *)
  json_body : option json
}.

(** What [requests.post] itself raises: connection-level failures, never
    an HTTP status error (those come from [raise_for_status]). *)
Inductive transport_error : Type :=
| ConnectionError
| Timeout
| OtherRequestException (msg : string).

Inductive exn : Type :=
| HTTPError (r : response)
| TransportError (t : transport_error)
| JSONDecodeError
| KeyError (k : pykey)
| IndexError
| TypeError
| ValueError (msg : string)
| RuntimeError (msg : string).

(** Lookup in a decoded JSON object; [json.loads] leaves one value per
    key, so the first match is the only one. *)
Fixpoint dict_lookup (k : string) (fields : list (string * json))
  : option json :=
  match fields with
  | [] => None
  | (k', v) :: rest => if String.eqb k k' then Some v else dict_lookup k rest
  end.

(** [j[k]] for a string key [k]: only a dict can be subscripted by a
    string; a list or a string wants an integer index, anything else is
    not subscriptable. *)
Definition getitem_str (j : json) (k : string) : exn + json :=
  match j with
  | JObj fields =>
      match dict_lookup k fields with
      | Some v => inr v
      | None => inl (KeyError (KStr k))
      end
  | _ => inl TypeError
  end.

(** [j[0]]: the first item of a list, the first character of a string;
    a dict decoded from JSON has no integer key. *)
Definition getitem_0 (j : json) : exn + json :=
  match j with
  | JArr (x :: _) => inr x
  | JArr [] => inl IndexError
  | JStr (String c _) => inr (JStr (String c ""))
  | JStr EmptyString => inl IndexError
  | JObj _ => inl (KeyError (KInt 0))
  | _ => inl TypeError
  end.

(** *** The request and the recorded effects *)

Record message : Type := Message { role : string; content : string }.

Record payload : Type := Payload {
  p_model : string;
  p_messages : list message;
  p_max_tokens : Z;
  p_temperature : Q
}.

Inductive event : Type :=
| EPost (url : string) (headers : list (string * string))
        (body : payload) (timeout : Z)
| ESleep (seconds : Z)
| ELogWarning (msg : string)
| ELogError (e : exn).

Record GitHubModelsClient : Type := Client {
  githubToken : string;
  model : string;
  headers : list (string * string);
  maxRetries : Z;
  baseDelay : Z
}.

Definition BASE_URL : string := "https://models.inference.ai.azure.com".

(** [__init__] *)
Definition init (githubToken : string) (model : string)
  : GitHubModelsClient :=
  {| githubToken := githubToken;
     model := model;
     headers := [("Authorization", "Bearer " +:+ githubToken);
                 ("Content-Type", "application/json")];
     maxRetries := 3;
     baseDelay := 5 |}.

Definition default_model : string := "gpt-4o-mini".

(** The keyword arguments of [generate]. *)
Record CompletionRequest : Type := Request {
  prompt : string;
  systemPrompt : option string;
  maxTokens : Z;
  temperature : Q
}.

Definition build_messages (req : CompletionRequest) : list message :=
  (match systemPrompt req with
   | Some s => if Py.truthy s then [Message "system" s] else []
   | None => []
   end) ++ [Message "user" (prompt req)].

Definition build_payload (self : GitHubModelsClient)
  (req : CompletionRequest) : payload :=
  {| p_model := model self;
     p_messages := build_messages req;
     p_max_tokens := maxTokens req;
     p_temperature := temperature req |}.

(** *** Failure kinds

    [generate] reports every failure by raising.  The kinds below name the
    exceptions that can leave it: the three [RuntimeError]s with a fixed
    text, the lookup and decoding errors of a body that is not shaped
    [{"choices": [{"message": {"content": ...}}]}], and everything else. *)

Inductive ErrorKind : Type :=
| RateLimitExhausted
| InvalidCredentials
| AccessDenied
| MalformedResponse
| ProviderError.

Definition error_kind (e : exn) : ErrorKind :=
  match e with
  | RuntimeError msg =>
      if String.eqb msg "Invalid GitHub token." then InvalidCredentials
      else if String.eqb msg "GitHub Copilot access required." then AccessDenied
      else if String.prefix "API rate limit exceeded" msg then RateLimitExhausted
      else ProviderError
  | JSONDecodeError | KeyError _ | IndexError | TypeError => MalformedResponse
  | HTTPError _ | TransportError _ | ValueError _ => ProviderError
  end.

(** The delays slept and the requests sent, as recorded in a trace. *)
Definition sleeps (tr : list event) : list Z :=
  omap (λ ev, match ev with ESleep t => Some t | _ => None end) tr.

Definition posts (tr : list event) : list payload :=
  omap (λ ev, match ev with EPost _ _ p _ => Some p | _ => None end) tr.


(** A body shaped [{"choices": [{"message": {"content": ...}}, ...]}]. *)
Definition has_content (body : option json) : bool :=
  match body with
  | Some (JObj top) =>
      match dict_lookup "choices" top with
      | Some (JArr (JObj choice :: _)) =>
          match dict_lookup "message" choice with
          | Some (JObj msg) =>
              match dict_lookup "content" msg with
              | Some _ => true
              | None => false
              end
          | _ => false
          end
      | _ => false
      end
  | _ => false
  end.

Section backend.
(** The completion backend: an arbitrary deterministic machine that
    answers each POST with a response or a transport failure. *)
Context {B : Type}.
Variable post : B → payload → (transport_error + response) * B.

Record world : Type := World {
  backend : B;
  trace : list event
}.

Abbreviation M := (Py.M world exn).

Definition emit (ev : event) : M unit :=
  Py.modify (λ w, {| backend := backend w; trace := trace w ++ [ev] |}).

Definition post_event (self : GitHubModelsClient) (p : payload) : event :=
  EPost (BASE_URL +:+ "/chat/completions") (headers self) p 120.

(** [requests.post(url, headers=..., json=payload, timeout=120)] *)
Definition requests_post (self : GitHubModelsClient) (p : payload)
  : M response :=
  λ w,
    let tr := trace w ++ [post_event self p] in
    match post (backend w) p with
    | (inr r, b') => (inr r, {| backend := b'; trace := tr |})
    | (inl t, b') => (inl (TransportError t), {| backend := b'; trace := tr |})
    end.

(** [response.raise_for_status()]: a 4xx or 5xx status raises. *)
Definition is_http_error (r : response) : bool :=
  (400 <=? status_code r) && (status_code r <? 600).

Definition raise_for_status (r : response) : M unit :=
  if is_http_error r then Py.raise (HTTPError r) else Py.ret tt.

(** [response.json()] *)
Definition response_json (r : response) : M json :=
  match json_body r with
  | Some j => Py.ret j
  | None => Py.raise JSONDecodeError
  end.

(** [time.sleep(t)] *)
Definition time_sleep (t : Z) : M unit :=
  if (t <? 0)%Z
  then Py.raise (ValueError "sleep length must be non-negative")
  else emit (ESleep t).

(** [data["choices"][0]["message"]["content"]] *)
Definition extract_content (data : json) : exn + json :=
  match getitem_str data "choices" with
  | inl e => inl e
  | inr choices =>
      match getitem_0 choices with
      | inl e => inl e
      | inr choice =>
          match getitem_str choice "message" with
          | inl e => inl e
          | inr msg => getitem_str msg "content"
          end
      end
  end.

(** The body of the [try] block of one attempt. *)
Definition attempt_body (self : GitHubModelsClient) (p : payload)
  : M json :=
  let* response := requests_post self p in
  let* _ := raise_for_status response in
  let* data := response_json response in
  Py.lift_result (extract_content data).

Definition rate_limit_warning (waitTime attempt retries : Z) : string :=
  "Rate limited. Waiting " +:+ pretty waitTime +:+ "s (attempt "
    +:+ pretty (attempt + 1) +:+ "/" +:+ pretty retries +:+ ")".

Definition rate_limit_message (retries : Z) : string :=
  "API rate limit exceeded after " +:+ pretty retries +:+ " retries".

(** [str(e)] of an [HTTPError]; the text is made by the HTTP library. *)
Variable str_HTTPError : response → string.

(** [for attempt in range(self.maxRetries): ...] followed by the final
    [raise]; [continue] is the recursive call on the remaining
    attempts. *)
Fixpoint attempt_loop (self : GitHubModelsClient) (p : payload)
  (attempts : list Z) : M json :=
  match attempts with
  | [] => Py.raise (RuntimeError (rate_limit_message (maxRetries self)))
  | attempt :: rest =>
      Py.try_except (attempt_body self p)
        (λ e,
           match e with
           | HTTPError response =>
               if (status_code response =? 429)%Z then
                 let waitTime := baseDelay self * (attempt + 1) * 2 in
                 let* _ := emit (ELogWarning
                    (rate_limit_warning waitTime attempt
                       (maxRetries self))) in
                 let* _ := time_sleep waitTime in
                 attempt_loop self p rest
               else if (status_code response =? 401)%Z then
                 Py.raise (RuntimeError "Invalid GitHub token.")
               else if (status_code response =? 403)%Z then
                 Py.raise (RuntimeError "GitHub Copilot access required.")
               else
                 Py.raise
                   (RuntimeError ("API error: " +:+ str_HTTPError response))
           | _ =>
               let* _ := emit (ELogError e) in
               Py.raise e
           end)
  end.

Definition generate (self : GitHubModelsClient) (req : CompletionRequest)
  : M json :=
  attempt_loop self (build_payload self req) (Py.range (maxRetries self)).


(** The events of one attempt that is answered 429. *)
Definition rate_limited_attempt (self : GitHubModelsClient) (p : payload)
  (attempt : Z) : list event :=
  [post_event self p;
   ELogWarning (rate_limit_warning (baseDelay self * (attempt + 1) * 2)
                  attempt (maxRetries self));
   ESleep (baseDelay self * (attempt + 1) * 2)].

(** The backend answers HTTP 429 to each of the next [n] requests. *)
Fixpoint answers_429 (n : nat) (b : B) (p : payload) : Prop :=
  match n with
  | O => True
  | Datatypes.S n' =>
      ∃ r b', post b p = (inr r, b') ∧ status_code r = 429
              ∧ answers_429 n' b' p
  end.

End backend.

End GitHubModels.

(** ** [utils/webSearch.py] *)

Module WebSearch.

(** A provider result and an article are both [Dict[str, str]]: the
    provider hands out string fields only. *)
Abbreviation strdict := (gmap string string).

(** [d.get(k, default)] *)
Definition dict_get (d : strdict) (k : string) (default : string) : string :=
  match d !! k with
  | Some v => v
  | None => default
  end.

(** Any exception derived from [Exception], as the provider raises them. *)
Record exn : Type := Exception { exn_class : string; exn_msg : string }.

Inductive event : Type :=
| ESleep (seconds : Z)
| ELogFound (count : nat) (query : string)
| ELogSearchFailed (e : exn)
| ELogCategory (category : string)
| ELogUnique (category : string) (count : nat).

(** A Python [dict] with insertion order: the list of its items. *)
Fixpoint dict_setitem {V} (d : list (string * V)) (k : string) (v : V)
  : list (string * V) :=
  match d with
  | [] => [(k, v)]
  | (k', v') :: rest =>
      if String.eqb k k' then (k', v) :: rest
      else (k', v') :: dict_setitem rest k v
  end.

Fixpoint dict_getitem {V} (d : list (string * V)) (k : string) : option V :=
  match d with
  | [] => None
  | (k', v') :: rest => if String.eqb k k' then Some v' else dict_getitem rest k
  end.

Section provider.
(** [DDGS().news]: an arbitrary deterministic machine answering each query
    with a list of result dictionaries, or raising. *)
Context {S : Type}.
Variable ddgs_news :
  S → ∀ (keywords region safesearch timelimit : string) (max_results : Z),
    (exn + list strdict) * S.

Record world : Type := World {
  ddgs : S;
  trace : list event
}.

Abbreviation M := (Py.M world exn).

Definition emit (ev : event) : M unit :=
  Py.modify (λ w, {| ddgs := ddgs w; trace := trace w ++ [ev] |}).

Definition call_news (keywords region safesearch timelimit : string)
  (max_results : Z) : M (list strdict) :=
  λ w, match ddgs_news (ddgs w) keywords region safesearch timelimit
               max_results with
       | (r, s') => (r, {| ddgs := s'; trace := trace w |})
       end.

(** The dictionary literal built for one provider result. *)
Definition make_article (query : string) (result : strdict) : strdict :=
  list_to_map
    [("title", dict_get result "title" "");
     ("link", dict_get result "url" "");
     ("snippet", dict_get result "body" "");
     ("source", dict_get result "source" "");
     ("date", dict_get result "date" "");
     ("image", dict_get result "image" "");
     ("query_category", query)].

(** [articles = []; for result in results: articles.append({...})] *)
Definition collect_articles (query : string) (results : list strdict)
  : list strdict :=
  foldl (λ articles result, articles ++ [make_article query result])
        [] results.

Definition search_news (query : string) (max_results : Z)
  (time_period : string) : M (list strdict) :=
  Py.try_except
    (let* results :=
       call_news query "us-en" "moderate" time_period max_results in
     let articles := collect_articles query results in
     let* _ := emit (ELogFound (length articles) query) in
     let* _ := emit (ESleep 1) in
     Py.ret articles)
    (λ e,
       let* _ := emit (ELogSearchFailed e) in
       Py.ret []).

(** One round of the deduplication loop: the state is
    [(category_articles, seen_links)]. *)
Definition dedup_step (category : string)
  (st : list strdict * gset string) (article : strdict)
  : list strdict * gset string :=
  let link := dict_get article "link" "" in
  if Py.truthy link && bool_decide (link ∉ st.2) then
    (st.1 ++ [<["category" := category]> article], {[link]} ∪ st.2)
  else st.

(** [for keyword in keywords: ...] *)
Fixpoint keywords_loop (category : string) (results_per_query : Z)
  (keywords : list string) (st : list strdict * gset string)
  : M (list strdict * gset string) :=
  match keywords with
  | [] => Py.ret st
  | keyword :: rest =>
      let* articles := search_news keyword results_per_query "w" in
      keywords_loop category results_per_query rest
        (foldl (dedup_step category) st articles)
  end.

(** [for category, keywords in topics.items(): ...] *)
Fixpoint topics_loop (results_per_query : Z)
  (items : list (string * list string))
  (all_results : list (string * list strdict))
  : M (list (string * list strdict)) :=
  match items with
  | [] => Py.ret all_results
  | (category, keywords) :: rest =>
      let* _ := emit (ELogCategory category) in
      let* st := keywords_loop category results_per_query keywords ([], ∅) in
      let category_articles := st.1 in
      let all_results := dict_setitem all_results category category_articles in
      let* _ := emit (ELogUnique category (length category_articles)) in
      topics_loop results_per_query rest all_results
  end.

(** [topics] is given by its items, in the dictionary's order. *)
Definition search_multiple_topics (topics : list (string * list string))
  (results_per_query : Z) : M (list (string * list strdict)) :=
  topics_loop results_per_query topics [].

(** *** Reading the result against the provider's answers *)

(** The dedup key of an article. *)
Definition link (article : strdict) : string := dict_get article "link" "".

(** What the aggregator writes into a retained article. *)
Definition with_category (category : string) (article : strdict) : strdict :=
  <["category" := category]> article.

(** The provider's answers to one call per keyword, in keyword order, each
    with [timelimit="w"] and at most [n] results. *)
Fixpoint ask_keywords (s : S) (keywords : list string) (n : Z)
  : list (string * (exn + list strdict)) * S :=
  match keywords with
  | [] => ([], s)
  | keyword :: rest =>
      let (answer, s1) := ddgs_news s keyword "us-en" "moderate" "w" n in
      let (answers, s2) := ask_keywords s1 rest n in
      ((keyword, answer) :: answers, s2)
  end.

(** The same for every category, in the order of the topic set. *)
Fixpoint ask_topics (s : S) (topics : list (string * list string)) (n : Z)
  : list (string * list (string * (exn + list strdict))) * S :=
  match topics with
  | [] => ([], s)
  | (category, keywords) :: rest =>
      let (answers, s1) := ask_keywords s keywords n in
      let (others, s2) := ask_topics s1 rest n in
      ((category, answers) :: others, s2)
  end.

(** The articles one answered call contributes: none when it failed. *)
Definition articles_of_call (call : string * (exn + list strdict))
  : list strdict :=
  match call.2 with
  | inr results => make_article call.1 <$> results
  | inl _ => []
  end.

Definition returned_articles (calls : list (string * (exn + list strdict)))
  : list strdict :=
  concat (articles_of_call <$> calls).

(** The article lists of the calls that succeeded, failed calls left out. *)
Definition successful_results (calls : list (string * (exn + list strdict)))
  : list (list strdict) :=
  omap (λ call : string * (exn + list strdict),
          match call.2 with
          | inr results => Some (make_article call.1 <$> results)
          | inl _ => None
          end) calls.

(** First occurrence wins: an article is kept when its link is not empty
    and differs from the link of every article before it; [earlier] holds
    the links of the articles before the list. *)
Fixpoint first_occurrences (earlier : list string) (articles : list strdict)
  : list strdict :=
  match articles with
  | [] => []
  | article :: rest =>
      if decide (link article ≠ "" ∧ link article ∉ earlier)
      then article :: first_occurrences (earlier ++ [link article]) rest
      else first_occurrences (earlier ++ [link article]) rest
  end.

(** [seen_links] against the links met so far: it holds the non-empty
    ones. *)
Definition seen_agrees (seen : gset string) (earlier : list string) : Prop :=
  ∀ l, l ∈ seen ↔ l ∈ earlier ∧ l ≠ "".

(** The entry a category is expected to get from its answered calls. *)
Definition category_result
  (entry : string * list (string * (exn + list strdict)))
  : string * list strdict :=
  (entry.1,
   with_category entry.1
     <$> first_occurrences [] (returned_articles entry.2)).


(** [all_results[category] = category_articles], on an entry. *)
Definition store_entry (d : list (string * list strdict))
  (entry : string * list strdict) : list (string * list strdict) :=
  dict_setitem d entry.1 entry.2.

End provider.

End WebSearch.

(** ** Concrete clients, backends and providers *)

Module Examples.

Definition example_client : GitHubModels.GitHubModelsClient :=
  GitHubModels.init "token" GitHubModels.default_model.

Definition example_request : GitHubModels.CompletionRequest :=
  {| GitHubModels.prompt := "Say 'OK'";
     GitHubModels.systemPrompt := None;
     GitHubModels.maxTokens := 10;
     GitHubModels.temperature := 3 # 10 |}.

(** A backend that gives the same answer to every request. *)
Definition constant_backend (status : Z) (body : option GitHubModels.json)
  (b : unit) (p : GitHubModels.payload)
  : (GitHubModels.transport_error + GitHubModels.response) * unit :=
  (inr (GitHubModels.Response status body), tt).

Definition no_text (r : GitHubModels.response) : string := "".

Definition empty_choices : GitHubModels.json :=
  GitHubModels.JObj [("choices", GitHubModels.JArr [])].

(** A provider that knows two queries and fails on every other one; its
    state counts the calls. *)
Definition example_provider (s : nat)
  (keywords region safesearch timelimit : string) (max_results : Z)
  : (WebSearch.exn + list (gmap string string)) * nat :=
  if String.eqb keywords "q1" then
    (inr [ {["url" := "x"]}; {["url" := "y"; "title" := "first"]} ],
     Datatypes.S s)
  else if String.eqb keywords "q2" then
    (inr [ {["url" := "y"; "title" := "second"]}; {["url" := "z"]} ],
     Datatypes.S s)
  else (inl (WebSearch.Exception "RatelimitException" "202 Ratelimit"),
        Datatypes.S s).

Definition example_topics : list (string * list string) :=
  [("catA", ["q1"; "q2"]); ("catB", ["q3"])].

End Examples.

(** ** [utils/githubModels.py]: reading answers, and the connection test *)

Module ClientMore.
Import GitHubModels.

(** The value at [choices[0].message.content] of a decoded body, when the
    body has that shape. *)
Definition content_of (body : option json) : option json :=
  match body with
  | Some (JObj top) =>
      match dict_lookup "choices" top with
      | Some (JArr (JObj choice :: _)) =>
          match dict_lookup "message" choice with
          | Some (JObj msg) => dict_lookup "content" msg
          | _ => None
          end
      | _ => None
      end
  | _ => None
  end.

(** [bool(v)] for a decoded JSON value. *)
Definition json_truthy (v : json) : bool :=
  match v with
  | JNull => false
  | JBool b => b
  | JInt n => negb (n =? 0)
  | JFloat q => negb (Qeq_bool q 0)
  | JStr s => Py.truthy s
  | JArr items => match items with [] => false | _ :: _ => true end
  | JObj fields => match fields with [] => false | _ :: _ => true end
  end.

(** The seconds slept in all, as recorded in a trace. *)
Definition total_sleep (tr : list event) : Z := foldr Z.add 0 (sleeps tr).

Section backend.
Context {B : Type}.
Variable post : B → payload → (transport_error + response) * B.
Variable str_HTTPError : response → string.

(** The backend answers HTTP 429 to [k] requests in a row and is then in
    state [b']. *)
Fixpoint after_429 (k : nat) (b : B) (p : payload) (b' : B) : Prop :=
  match k with
  | O => b' = b
  | Datatypes.S k' =>
      ∃ r b1, post b p = (inr r, b1) ∧ status_code r = 429
              ∧ after_429 k' b1 p b'
  end.

(** The world of [testConnection]: the client's world, and the errors its
    own [logger.error] call reports; that call comes after everything
    [generate] has recorded. *)
Record test_world : Type := TestWorld {
  client_world : world (B:=B);
  connection_test_failed : list exn
}.

Definition test_request : CompletionRequest :=
  {| prompt := "Say 'OK'";
     systemPrompt := None;
     maxTokens := 10;
     temperature := 3 # 10 |}.

Definition testConnection (self : GitHubModelsClient)
  : Py.M test_world exn bool :=
  λ tw,
    match generate post str_HTTPError self test_request (client_world tw) with
    | (inr response, w') =>
        (inr (json_truthy response),
         {| client_world := w';
            connection_test_failed := connection_test_failed tw |})
    | (inl e, w') =>
        (inr false,
         {| client_world := w';
            connection_test_failed := connection_test_failed tw ++ [e] |})
    end.

End backend.

End ClientMore.

(** ** [utils/webSearch.py]: web search and verification search *)

Module WebSearchMore.
Import WebSearch.

(** The seconds slept, as recorded in a trace of the news search. *)
Definition slept (tr : list event) : list Z :=
  omap (λ ev, match ev with ESleep t => Some t | _ => None end) tr.

(** The keys of an article of the aggregator's result. *)
Definition article_keys : gset string :=
  {[ "title"; "link"; "snippet"; "source"; "date"; "image";
     "query_category"; "category" ]}.

Inductive web_event : Type :=
| WSleep (seconds : Z)
| WLogWebSearchFailed (e : exn).

Section provider.
(** [DDGS().text], like [DDGS().news] an arbitrary deterministic machine. *)
Context {S : Type}.
Variable ddgs_text :
  S → ∀ (keywords region safesearch : string) (max_results : Z),
    (exn + list strdict) * S.

Record web_world : Type := WebWorld {
  web_ddgs : S;
  web_trace : list web_event
}.

Abbreviation M := (Py.M web_world exn).

Definition web_emit (ev : web_event) : M unit :=
  Py.modify (λ w, {| web_ddgs := web_ddgs w;
                     web_trace := web_trace w ++ [ev] |}).

Definition call_text (keywords region safesearch : string) (max_results : Z)
  : M (list strdict) :=
  λ w, match ddgs_text (web_ddgs w) keywords region safesearch max_results
       with
       | (r, s') => (r, {| web_ddgs := s'; web_trace := web_trace w |})
       end.

Definition make_item (result : strdict) : strdict :=
  list_to_map
    [("title", dict_get result "title" "");
     ("link", dict_get result "href" "");
     ("snippet", dict_get result "body" "")].

(** [items = []; for result in results: items.append({...})] *)
Definition collect_items (results : list strdict) : list strdict :=
  foldl (λ items result, items ++ [make_item result]) [] results.

Definition search_web (query : string) (max_results : Z)
  : M (list strdict) :=
  Py.try_except
    (let* results := call_text query "us-en" "moderate" max_results in
     let items := collect_items results in
     let* _ := web_emit (WSleep 1) in
     Py.ret items)
    (λ e,
       let* _ := web_emit (WLogWebSearchFailed e) in
       Py.ret []).

Definition search_for_verification (claim : string) (max_results : Z)
  : M (list strdict) :=
  let verification_query := claim +:+ " source official announcement" in
  search_web verification_query max_results.

End provider.

End WebSearchMore.

(** ** [config/settings.py] and [carmResearchAgent.py]: gathering news *)

Module Orchestrator.

Record SearchConfig : Type := {
  sources : list string;
  mobileCarmKeywords : list string;
  orthopedicKeywords : list string;
  vascularKeywords : list string;
  resultsPerQuery : Z;
  maxNewsAgeDays : Z
}.

(** [SearchConfig()] *)
Definition default_SearchConfig : SearchConfig :=
  {| sources := ["auntminnie.com"; "massdevice.com"; "medtechdive.com";
                 "medgadget.com"; "fiercebiotech.com"; "devicetalks.com"];
     mobileCarmKeywords := ["mobile C-arm surgery imaging news";
                            "fluoroscopy surgical system hospital";
                            "Ziehm Siemens GE Philips C-arm"];
     orthopedicKeywords := ["orthopedic surgery robot imaging news";
                            "spine surgery navigation technology";
                            "Stryker Medtronic Zimmer orthopedic"];
     vascularKeywords := ["interventional radiology vascular imaging";
                          "angiography catheterization lab news";
                          "hybrid OR endovascular surgery"];
     resultsPerQuery := 15;
     maxNewsAgeDays := 7 |}.

Section provider.
Context {S : Type}.
Variable ddgs_news :
  S → ∀ (keywords region safesearch timelimit : string) (max_results : Z),
    (WebSearch.exn + list (gmap string string)) * S.

(** The topic dictionary [_gatherNews] builds, by its items. *)
Definition topics_of (search : SearchConfig) : list (string * list string) :=
  [("mobileCarm", mobileCarmKeywords search);
   ("orthopedic", orthopedicKeywords search);
   ("vascular", vascularKeywords search)].

Definition _gatherNews (search : SearchConfig)
  : Py.M (WebSearch.world (S:=S)) WebSearch.exn
      (list (string * list (gmap string string))) :=
  WebSearch.search_multiple_topics ddgs_news (topics_of search)
    (resultsPerQuery search).

End provider.

End Orchestrator.

(** ** [agents/baseAgent.py] and [agents/researchAgent.py] *)

Module Agents.

Definition dquote : string := String (Ascii.ascii_of_nat 34) EmptyString.

Definition newline : string := String (Ascii.ascii_of_nat 10) EmptyString.

Record BaseAgent : Type := {
  name : string;
  modelName : string;
  temperature : Q;
  maxTokens : Z;
  client : GitHubModels.GitHubModelsClient
}.

(** The records of the agents' loggers. *)
Inductive agent_event : Type :=
| LogInitialized (name modelName : string)
| LogGenerationFailed (e : GitHubModels.exn)
| LogProcessing (total : nat)
| LogAnalyzed (count : nat) (category : string)
| LogFailedToAnalyze (category : string) (e : GitHubModels.exn).

(** The values stored in a finding: a text, a count, the model's answer,
    a list of articles (or the empty list). *)
Inductive pyvalue : Type :=
| PStr (s : string)
| PInt (n : Z)
| PJson (j : GitHubModels.json)
| PList (items : list (gmap string string)).

(** [ResearchAgent.systemPrompt] *)
Definition ResearchAgent_systemPrompt : string :=
  String.concat newline
    ["You are an expert MedTech market research analyst. Your job is to find and report REAL NEWS from the articles provided.";
     "";
     "IMPORTANT: Each article headline IS a news item. Report what you find, even if it seems minor.";
     "";
     "Focus areas:";
     "- Mobile C-arm imaging systems (Ziehm, Siemens, GE, Philips)";
     "- Orthopedic surgery technology (robots, navigation, joint replacement)";
     "- Interventional vascular surgery and imaging";
     "";
     "What counts as news:";
     "- Product launches or announcements";
     "- Company investments or expansions";
     "- Clinical study results";
     "- Regulatory approvals";
     "- Acquisitions or partnerships";
     "- New technology developments";
     "- Market expansions";
     "";
     "ALWAYS report the actual news from articles. Do NOT say "
       +:+ dquote +:+ "no developments" +:+ dquote
       +:+ " if articles exist."].

(** One block of [_formatArticlesForAnalysis]; [i] counts from 1. *)
Definition format_article (i : nat) (article : gmap string string)
  : string :=
  let title := WebSearch.dict_get article "title" "No title" in
  let source := WebSearch.dict_get article "source" "Unknown" in
  let date := WebSearch.dict_get article "date" "" in
  let snippet := WebSearch.dict_get article "snippet" "" in
  let link := WebSearch.dict_get article "link" "" in
  String.concat newline
    [""; (* the block opens with a line break *)
     "Article " +:+ pretty i +:+ ":";
     "Title: " +:+ title;
     "Source: " +:+ source +:+ " | " +:+ date;
     "Content: " +:+ snippet;
     "URL: " +:+ link;
     "---"].

(** [enumerate(articles[:maxArticles], 1)], one block each, joined by a
    newline. *)
Definition _formatArticlesForAnalysis (articles : list (gmap string string))
  (maxArticles : nat) : string :=
  String.concat newline
    (imap (λ i article, format_article (Datatypes.S i) article)
          (take maxArticles articles)).

(** The prompt [run] builds for a category. *)
Definition analysis_prompt (category : string)
  (articles : list (gmap string string)) : string :=
  let articlesText := _formatArticlesForAnalysis articles 15 in
  String.concat newline
    ["Analyze these " +:+ pretty (length articles)
       +:+ " news articles about " +:+ category +:+ ".";
     "";
     "ARTICLES:";
     articlesText;
     "";
     "INSTRUCTIONS:";
     "1. Each article headline represents a real news item - report it";
     "2. Extract the key information from each article";
     "3. Include company names, products, locations mentioned";
     "4. Cite the source for each finding";
     "";
     "Respond with:";
     "SUMMARY: [Overview of the main news items found]";
     "";
     "KEY FINDINGS:";
     "1. [First news item with source link]";
     "2. [Second news item with source link]";
     "3. [Third news item with source link]";
     "(Continue for all relevant articles)";
     "";
     "COMPANIES MENTIONED: [List all companies]"].

(** The three dictionaries [run] stores. *)
Definition no_news : gmap string pyvalue :=
  list_to_map
    [("summary", PStr "No recent news found.");
     ("keyItems", PList []);
     ("sources", PList [])].

Definition analysed (response : GitHubModels.json)
  (articles : list (gmap string string)) : gmap string pyvalue :=
  list_to_map
    [("analysis", PJson response);
     ("articleCount", PInt (Z.of_nat (length articles)));
     ("rawArticles", PList (take 10 articles))].

Definition analysis_failed (text : string) : gmap string pyvalue :=
  list_to_map
    [("summary", PStr ("Analysis failed: " +:+ text));
     ("keyItems", PList []);
     ("sources", PList [])].

(** The categories that have articles, for which [run] asks the model. *)
Definition analysed_categories
  (items : list (string * list (gmap string string))) : nat :=
  length (List.filter
            (λ entry : string * list (gmap string string),
               match entry.2 with [] => false | _ :: _ => true end)
            items).

(** [findings[category] = finding], on an entry. *)
Definition store_finding (d : list (string * gmap string pyvalue))
  (entry : string * gmap string pyvalue)
  : list (string * gmap string pyvalue) :=
  WebSearch.dict_setitem d entry.1 entry.2.

Section backend.
Context {B : Type}.
Variable post :
  B → GitHubModels.payload
    → (GitHubModels.transport_error + GitHubModels.response) * B.
Variable str_HTTPError : GitHubModels.response → string.
(** [str(e)], as the exception classes define it. *)
Variable str_exn : GitHubModels.exn → string.

Record agent_world : Type := AgentWorld {
  llm : GitHubModels.world (B:=B);
  agent_log : list agent_event
}.

Abbreviation M := (Py.M agent_world GitHubModels.exn).

Definition log_event (ev : agent_event) : M unit :=
  Py.modify (λ aw, {| llm := llm aw; agent_log := agent_log aw ++ [ev] |}).

(** A call into the client, run on the client's part of the world. *)
Definition call_client {A} (m : Py.M (GitHubModels.world (B:=B))
                                  GitHubModels.exn A) : M A :=
  λ aw, match m (llm aw) with
        | (r, w') => (r, {| llm := w'; agent_log := agent_log aw |})
        end.

(** [BaseAgent.__init__], with [_initGitHubModels] *)
Definition BaseAgent_init (name githubToken modelName : string)
  (temperature : Q) (maxTokens : Z) : M BaseAgent :=
  if negb (Py.truthy githubToken) then
    Py.raise (GitHubModels.ValueError "GITHUB_TOKEN is required.")
  else
    let self :=
      {| name := name;
         modelName := modelName;
         temperature := temperature;
         maxTokens := maxTokens;
         client := GitHubModels.init githubToken modelName |} in
    let* _ := log_event (LogInitialized name modelName) in
    Py.ret self.

(** [ResearchAgent.__init__] *)
Definition ResearchAgent_init (githubToken modelName : string)
  (temperature : Q) (maxTokens : Z) : M BaseAgent :=
  BaseAgent_init "ResearchAgent" githubToken modelName temperature maxTokens.

(** [BaseAgent.generate] *)
Definition generate (self : BaseAgent) (prompt : string)
  (systemPrompt : option string) : M GitHubModels.json :=
  Py.try_except
    (call_client
       (GitHubModels.generate post str_HTTPError (client self)
          {| GitHubModels.prompt := prompt;
             GitHubModels.systemPrompt := systemPrompt;
             GitHubModels.maxTokens := maxTokens self;
             GitHubModels.temperature := temperature self |}))
    (λ e,
       let* _ := log_event (LogGenerationFailed e) in
       Py.raise e).

(** [for category, articles in rawArticles.items(): ...] of
    [ResearchAgent.run] *)
Fixpoint run_loop (self : BaseAgent)
  (items : list (string * list (gmap string string)))
  (findings : list (string * gmap string pyvalue))
  : M (list (string * gmap string pyvalue)) :=
  match items with
  | [] => Py.ret findings
  | (category, articles) :: rest =>
      match articles with
      | [] =>
          run_loop self rest
            (WebSearch.dict_setitem findings category no_news)
      | _ :: _ =>
          let prompt := analysis_prompt category articles in
          let* findings :=
            Py.try_except
              (let* response :=
                 generate self prompt (Some ResearchAgent_systemPrompt) in
               let findings :=
                 WebSearch.dict_setitem findings category
                   (analysed response articles) in
               let* _ := log_event (LogAnalyzed (length articles) category) in
               Py.ret findings)
              (λ e,
                 let* _ := log_event (LogFailedToAnalyze category e) in
                 Py.ret (WebSearch.dict_setitem findings category
                           (analysis_failed (str_exn e)))) in
          run_loop self rest findings
      end
  end.

(** [ResearchAgent.run]; [rawArticles] is given by its items. *)
Definition run (self : BaseAgent)
  (rawArticles : list (string * list (gmap string string)))
  : M (list (string * gmap string pyvalue)) :=
  let* _ := log_event
              (LogProcessing
                 (foldr Nat.add 0%nat (length <$> rawArticles.*2))) in
  run_loop self rawArticles [].

(** What [run] may store for a category. *)
Definition finding_for (entry : string * list (gmap string string))
  (finding : string * gmap string pyvalue) : Prop :=
  finding.1 = entry.1
  ∧ match entry.2 with
    | [] => finding.2 = no_news
    | _ :: _ =>
        (∃ response, finding.2 = analysed response entry.2)
        ∨ (∃ e, finding.2 = analysis_failed (str_exn e))
    end.

End backend.

End Agents.

(** ** More concrete inputs *)

Module MoreExamples.
Import GitHubModels.

(** A client whose retry budget has been set to zero. *)
Definition no_budget_client : GitHubModelsClient :=
  {| githubToken := "token";
     model := default_model;
     headers := [("Authorization", "Bearer token");
                 ("Content-Type", "application/json")];
     maxRetries := 0;
     baseDelay := 5 |}.

(** A backend that plays a script: its state is the list of answers still
    to give; once the script is over the connection fails. *)
Definition scripted_backend (b : list (transport_error + response))
  (p : payload) : (transport_error + response) * list (transport_error + response) :=
  match b with
  | [] => (inl ConnectionError, [])
  | answer :: rest => (answer, rest)
  end.

Definition ok_body : json :=
  JObj [("choices", JArr [JObj [("message", JObj [("content", JStr "OK")])]])].

Definition rate_limited : transport_error + response :=
  inr (Response 429 None).

(** A research agent as [ResearchAgent(githubToken="token")] builds it. *)
Definition example_agent : Agents.BaseAgent :=
  {| Agents.name := "ResearchAgent";
     Agents.modelName := default_model;
     Agents.temperature := 3 # 10;
     Agents.maxTokens := 4000;
     Agents.client := init "token" default_model |}.

Definition example_raw_articles : list (string * list (gmap string string)) :=
  [("mobileCarm", [ {["title" := "New C-arm"; "link" := "x"]} ]);
   ("orthopedic", [])].

End MoreExamples.

(** * Properties of the completion client *)

Section generate_properties.
Import GitHubModels.
Context {B : Type}.
Variable post : B → payload → (transport_error + response) * B.
Variable str_HTTPError : response → string.

Abbreviation generate := (generate post str_HTTPError).
Abbreviation attempt_loop := (attempt_loop post str_HTTPError).
Abbreviation attempt_body := (attempt_body post).
Abbreviation world := (@world B).

(** One attempt, once the backend has answered with a response. *)
Lemma attempt_body_response self p (w : world) r b' :
  post (backend w) p = (inr r, b') →
  attempt_body self p w =
    (if is_http_error r then inl (HTTPError r)
     else match json_body r with
          | Some data => extract_content data
          | None => inl JSONDecodeError
          end,
     {| backend := b'; trace := trace w ++ [post_event self p] |}).
Proof.
  intros Hpost.
  unfold attempt_body, Py.bind, requests_post, raise_for_status,
    response_json; simpl.
  rewrite Hpost; simpl.
  destruct (is_http_error r); [done|]. simpl.
  by destruct (json_body r).
Qed.

Lemma attempt_body_transport self p (w : world) t b' :
  post (backend w) p = (inl t, b') →
  attempt_body self p w =
    (inl (TransportError t),
     {| backend := b'; trace := trace w ++ [post_event self p] |}).
Proof.
  intros Hpost.
  unfold attempt_body, Py.bind, requests_post; simpl. by rewrite Hpost.
Qed.

(** A 429 answer: warn, sleep, go on with the remaining attempts. *)
Lemma attempt_loop_429 self p attempt rest (w : world) r b' :
  post (backend w) p = (inr r, b') →
  status_code r = 429 →
  0 ≤ baseDelay self * (attempt + 1) * 2 →
  attempt_loop self p (attempt :: rest) w =
    attempt_loop self p rest
      {| backend := b';
         trace := trace w ++ rate_limited_attempt self p attempt |}.
Proof.
  intros Hpost Hst Hwait. simpl. unfold Py.try_except.
  rewrite (attempt_body_response _ _ _ _ _ Hpost).
  unfold is_http_error. rewrite Hst. simpl.
  unfold Py.bind, emit, Py.modify, time_sleep; simpl.
  destruct (Z.ltb_spec (baseDelay self * (attempt + 1) * 2) 0); [lia|].
  simpl. rewrite Hst; simpl. unfold rate_limited_attempt.
  by rewrite <- !app_assoc.
Qed.


(** Any other outcome of an attempt ends the call at once. *)
Lemma attempt_loop_401 self p attempt rest (w : world) r b' :
  post (backend w) p = (inr r, b') →
  status_code r = 401 →
  attempt_loop self p (attempt :: rest) w =
    (inl (RuntimeError "Invalid GitHub token."),
     {| backend := b'; trace := trace w ++ [post_event self p] |}).
Proof.
  intros Hpost Hst. simpl. unfold Py.try_except.
  rewrite (attempt_body_response _ _ _ _ _ Hpost).
  unfold is_http_error. rewrite Hst; simpl. by rewrite Hst.
Qed.

Lemma attempt_loop_403 self p attempt rest (w : world) r b' :
  post (backend w) p = (inr r, b') →
  status_code r = 403 →
  attempt_loop self p (attempt :: rest) w =
    (inl (RuntimeError "GitHub Copilot access required."),
     {| backend := b'; trace := trace w ++ [post_event self p] |}).
Proof.
  intros Hpost Hst. simpl. unfold Py.try_except.
  rewrite (attempt_body_response _ _ _ _ _ Hpost).
  unfold is_http_error. rewrite Hst; simpl. by rewrite Hst.
Qed.

(** Subscripting a body that lacks the expected shape raises one of the
    lookup errors. *)
Lemma extract_content_malformed data :
  has_content (Some data) = false →
  ∃ e, extract_content data = inl e ∧ error_kind e = MalformedResponse.
Proof.
  unfold has_content, extract_content, getitem_str, getitem_0.
  intros H.
  repeat (match goal with
          | |- context [match ?x with _ => _ end] => destruct x eqn:?
          | H : context [match ?x with _ => _ end] |- _ => destruct x eqn:?
          end; simplify_eq/=; try by eauto).
Qed.

Lemma extract_content_well_formed data :
  has_content (Some data) = true →
  ∃ v, extract_content data = inr v.
Proof.
  unfold has_content, extract_content, getitem_str, getitem_0.
  intros H.
  repeat (match goal with
          | H : context [match ?x with _ => _ end] |- _ => destruct x eqn:?
          end; simplify_eq/=; try by eauto).
Qed.

(** A well-shaped 2xx answer is returned at once. *)
Lemma attempt_loop_success self p attempt rest (w : world) r b' data v :
  post (backend w) p = (inr r, b') →
  is_http_error r = false →
  json_body r = Some data →
  extract_content data = inr v →
  attempt_loop self p (attempt :: rest) w =
    (inr v, {| backend := b'; trace := trace w ++ [post_event self p] |}).
Proof.
  intros Hpost Hst Hjson Hv. simpl. unfold Py.try_except.
  by rewrite (attempt_body_response _ _ _ _ _ Hpost), Hst, Hjson, Hv.
Qed.

Lemma attempt_loop_malformed self p attempt rest (w : world) r b' :
  post (backend w) p = (inr r, b') →
  is_http_error r = false →
  has_content (json_body r) = false →
  ∃ e, attempt_loop self p (attempt :: rest) w =
         (inl e, {| backend := b';
                    trace := trace w ++ [post_event self p; ELogError e] |})
       ∧ error_kind e = MalformedResponse.
Proof.
  intros Hpost Hst Hbody. simpl. unfold Py.try_except.
  rewrite (attempt_body_response _ _ _ _ _ Hpost), Hst.
  destruct (json_body r) as [data|] eqn:Hjson.
  - destruct (extract_content_malformed data Hbody) as (e & -> & Hkind).
    exists e. split; [|done].
    destruct e; simplify_eq/=; unfold Py.bind, emit, Py.modify, Py.raise;
      simpl; by rewrite <- app_assoc.
  - exists JSONDecodeError. split; [|done].
    unfold Py.bind, emit, Py.modify, Py.raise; simpl.
    by rewrite <- app_assoc.
Qed.


Lemma range_pos n : 0 < n → ∃ rest, Py.range n = 0 :: rest.
Proof.
  intros Hn. unfold Py.range.
  destruct (Z.to_nat n) as [|m] eqn:Hm; [lia|].
  by exists (Z.of_nat <$> seq 1 m).
Qed.

Lemma error_kind_rate_limit n :
  error_kind (RuntimeError (rate_limit_message n)) = RateLimitExhausted.
Proof. reflexivity. Qed.

(** The whole loop when every remaining attempt is answered 429. *)
Lemma attempt_loop_all_429 self p m : ∀ k (w : world),
  0 ≤ baseDelay self →
  answers_429 post m (backend w) p →
  ∃ b', attempt_loop self p (Z.of_nat <$> seq k m) w =
    (inl (RuntimeError (rate_limit_message (maxRetries self))),
     {| backend := b';
        trace := trace w ++
          concat (rate_limited_attempt self p <$> (Z.of_nat <$> seq k m)) |}).
Proof.
  induction m as [|m IH]; intros k w Hdelay Hans.
  - exists (backend w). simpl. rewrite app_nil_r. by destruct w.
  - destruct Hans as (r & b1 & Hpost & Hst & Hans).
    cbn [seq fmap list_fmap].
    rewrite (attempt_loop_429 _ _ _ _ _ _ _ Hpost Hst) by lia.
    destruct (IH (Datatypes.S k) {| backend := b1;
        trace := trace w ++ rate_limited_attempt self p (Z.of_nat k) |}
        Hdelay Hans) as (b' & ->).
    exists b'. cbn [concat backend trace]. by rewrite <- app_assoc.
Qed.

Lemma sleeps_rate_limited self p attempts :
  sleeps (concat (rate_limited_attempt self p <$> attempts)) =
    (λ attempt, baseDelay self * (attempt + 1) * 2) <$> attempts.
Proof.
  induction attempts as [|a l IH]; [done|].
  rewrite !fmap_cons. cbn [concat rate_limited_attempt app].
  unfold sleeps, posts in *. cbn [omap list_omap post_event].
  by rewrite IH.
Qed.

Lemma posts_rate_limited self p attempts :
  posts (concat (rate_limited_attempt self p <$> attempts)) =
    (λ _, p) <$> attempts.
Proof.
  induction attempts as [|a l IH]; [done|].
  rewrite !fmap_cons. cbn [concat rate_limited_attempt app].
  unfold sleeps, posts in *. cbn [omap list_omap post_event].
  by rewrite IH.
Qed.

Lemma backoff_increasing d m : ∀ k,
  0 < d →
  StronglySorted Z.lt
    ((λ attempt, d * (attempt + 1) * 2) <$> (Z.of_nat <$> seq k m)).
Proof.
  induction m as [|m IH]; intros k Hd; [constructor|].
  cbn [seq fmap list_fmap]. constructor; [by apply IH|].
  apply Forall_forall. intros x Hx.
  apply list_elem_of_fmap in Hx as (a & -> & Ha).
  apply list_elem_of_fmap in Ha as (n & -> & Hn).
  apply elem_of_seq in Hn. nia.
Qed.

(** C1. If the backend answers HTTP 429 to every attempt, [generate] sends
    exactly [maxRetries] requests, sleeps [baseDelay * attemptNumber * 2]
    after the attempt numbered [attemptNumber] (counted from 1) and so
    before each retry, these delays grow strictly, and the call ends by
    raising the rate-limit error. *)
Theorem generate_rate_limit_exhausted self req (w : world) :
  0 ≤ maxRetries self →
  0 < baseDelay self →
  answers_429 post (Z.to_nat (maxRetries self)) (backend w)
    (build_payload self req) →
  ∃ b' evs,
    generate self req w =
      (inl (RuntimeError (rate_limit_message (maxRetries self))),
       {| backend := b'; trace := trace w ++ evs |})
    ∧ error_kind (RuntimeError (rate_limit_message (maxRetries self)))
      = RateLimitExhausted
    ∧ evs = concat (rate_limited_attempt self (build_payload self req)
                      <$> Py.range (maxRetries self))
    ∧ Z.of_nat (length (posts evs)) = maxRetries self
    ∧ sleeps evs = (λ attempt, baseDelay self * (attempt + 1) * 2)
                     <$> Py.range (maxRetries self)
    ∧ StronglySorted Z.lt (sleeps evs).
Proof.
  intros Hretries Hdelay Hans.
  destruct (attempt_loop_all_429 self (build_payload self req) _ 0%nat w
              ltac:(lia) Hans) as (b' & Hrun).
  exists b', (concat (rate_limited_attempt self (build_payload self req)
                        <$> Py.range (maxRetries self))).
  split; [exact Hrun|]. split; [apply error_kind_rate_limit|].
  split; [done|].
  rewrite posts_rate_limited, sleeps_rate_limited.
  split; [|split; [done|by apply backoff_increasing]].
  unfold Py.range. rewrite !length_fmap, length_seq. lia.
Qed.

(** C6. A 401 answer to the first attempt ends the call there with the
    invalid-token error, a 403 answer with the access error; in both cases
    one request has been sent, nothing was slept and nothing retried. *)
Theorem generate_auth_failure_no_retry self req (w : world) r b' :
  0 < maxRetries self →
  post (backend w) (build_payload self req) = (inr r, b') →
  (status_code r = 401 →
     generate self req w =
       (inl (RuntimeError "Invalid GitHub token."),
        {| backend := b';
           trace := trace w ++ [post_event self (build_payload self req)] |})
     ∧ error_kind (RuntimeError "Invalid GitHub token.") = InvalidCredentials)
  ∧ (status_code r = 403 →
     generate self req w =
       (inl (RuntimeError "GitHub Copilot access required."),
        {| backend := b';
           trace := trace w ++ [post_event self (build_payload self req)] |})
     ∧ error_kind (RuntimeError "GitHub Copilot access required.")
       = AccessDenied).
Proof.
  intros Hretries Hpost. unfold GitHubModels.generate.
  destruct (range_pos _ Hretries) as (rest & ->).
  split; intros Hst; (split; [|done]).
  - by apply attempt_loop_401 with r.
  - by apply attempt_loop_403 with r.
Qed.

(** C8. A 2xx answer whose body lacks [choices[0].message.content] ends
    the call on that attempt: the lookup or decoding error is logged and
    raised again, one request has been sent and none follows. *)
Theorem generate_malformed_response_no_retry self req (w : world) r b' :
  0 < maxRetries self →
  post (backend w) (build_payload self req) = (inr r, b') →
  200 ≤ status_code r ≤ 299 →
  has_content (json_body r) = false →
  ∃ e, generate self req w =
         (inl e,
          {| backend := b';
             trace := trace w ++
               [post_event self (build_payload self req); ELogError e] |})
       ∧ error_kind e = MalformedResponse.
Proof.
  intros Hretries Hpost Hst Hbody. unfold GitHubModels.generate.
  destruct (range_pos _ Hretries) as (rest & ->).
  apply attempt_loop_malformed with r; [done| |done].
  unfold is_http_error. destruct (Z.leb_spec 400 (status_code r)); [lia|done].
Qed.

End generate_properties.

(** * Properties of the search aggregator *)

Section search_properties.
Import WebSearch.
Context {S : Type}.
Variable ddgs_news :
  S → ∀ (keywords region safesearch timelimit : string) (max_results : Z),
    (exn + list strdict) * S.

Abbreviation search_news := (search_news ddgs_news).
Abbreviation keywords_loop := (keywords_loop ddgs_news).
Abbreviation topics_loop := (topics_loop ddgs_news).
Abbreviation search_multiple_topics := (search_multiple_topics ddgs_news).
Abbreviation ask_keywords := (ask_keywords ddgs_news).
Abbreviation ask_topics := (ask_topics ddgs_news).
Abbreviation world := (@world S).

Lemma truthy_true s : Py.truthy s = true ↔ s ≠ "".
Proof. destruct s; simpl; split; (done || congruence). Qed.

(** *** [search_news] *)

Lemma collect_articles_fmap query results :
  collect_articles query results = make_article query <$> results.
Proof.
  unfold collect_articles.
  enough (∀ acc, foldl (λ articles result,
                          articles ++ [make_article query result]) acc results
                 = acc ++ (make_article query <$> results)) as H by apply H.
  induction results as [|r rs IH]; intros acc; simpl.
  - by rewrite app_nil_r.
  - rewrite IH. by rewrite <- app_assoc.
Qed.

(** [search_news] always returns: the articles of the answer, or the empty
    list when the provider raised; the provider has moved on by one call. *)
Lemma search_news_run query n period (w : world) :
  ∃ tr, search_news query n period w =
    (inr (articles_of_call
            (query, (ddgs_news (ddgs w) query "us-en" "moderate" period n).1)),
     {| ddgs := (ddgs_news (ddgs w) query "us-en" "moderate" period n).2;
        trace := tr |}).
Proof.
  unfold WebSearch.search_news, Py.try_except, Py.bind, call_news,
    articles_of_call.
  destruct (ddgs_news _ _ _ _ _ _) as [[e|results] s']; simpl.
  - by eexists.
  - rewrite collect_articles_fmap. by eexists.
Qed.

(** *** The deduplication loop *)

Lemma link_with_category category article :
  link (with_category category article) = link article.
Proof.
  unfold link, with_category, dict_get. by rewrite lookup_insert_ne.
Qed.

Lemma first_occurrences_app earlier l1 : ∀ l2,
  first_occurrences (earlier) (l1 ++ l2) =
    first_occurrences earlier l1
      ++ first_occurrences (earlier ++ (link <$> l1)) l2.
Proof.
  revert earlier. induction l1 as [|a l1 IH]; intros earlier l2; simpl.
  - by rewrite app_nil_r.
  - rewrite !IH, <- !app_assoc. simpl. by case_decide.
Qed.

Lemma seen_agrees_empty : seen_agrees ∅ [].
Proof. intros l. rewrite elem_of_empty, elem_of_nil. naive_solver. Qed.

Lemma dedup_step_decide category acc seen a :
  dedup_step category (acc, seen) a =
    if decide (link a ≠ "" ∧ link a ∉ seen)
    then (acc ++ [with_category category a], {[link a]} ∪ seen)
    else (acc, seen).
Proof.
  unfold dedup_step; simpl. fold (link a). fold (with_category category a).
  destruct (Py.truthy (link a)) eqn:Hne; simpl.
  - apply truthy_true in Hne. case_bool_decide.
    + by rewrite decide_True.
    + rewrite decide_False; [done|]. naive_solver.
  - rewrite decide_False; [done|]. intros [Hne' _].
    apply truthy_true in Hne'. congruence.
Qed.

Lemma dedup_fold category articles : ∀ acc seen earlier,
  seen_agrees seen earlier →
  ∃ seen',
    foldl (dedup_step category) (acc, seen) articles =
      (acc ++ (with_category category <$> first_occurrences earlier articles),
       seen')
    ∧ seen_agrees seen' (earlier ++ (link <$> articles)).
Proof.
  induction articles as [|a l IH]; intros acc seen earlier Hseen; simpl.
  - exists seen. by rewrite !app_nil_r.
  - rewrite dedup_step_decide.
    assert (link a ∉ seen ↔ link a = "" ∨ link a ∉ earlier) as Hnew.
    { rewrite (Hseen (link a)).
      destruct (decide (link a = "")); [naive_solver|].
      destruct (decide (link a ∈ earlier)); naive_solver. }
    destruct (decide (link a ≠ "" ∧ link a ∉ seen)) as [[Hne Hk]|Hk].
    + rewrite decide_True by naive_solver.
      destruct (IH (acc ++ [with_category category a]) ({[link a]} ∪ seen)
                  (earlier ++ [link a])) as (seen' & -> & Hseen').
      { intros x. rewrite elem_of_union, elem_of_singleton,
          elem_of_app, list_elem_of_singleton, (Hseen x). naive_solver. }
      exists seen'. simpl. by rewrite <- !app_assoc in *.
    + rewrite decide_False by naive_solver.
      destruct (IH acc seen (earlier ++ [link a])) as (seen' & -> & Hseen').
      { intros x. rewrite elem_of_app, list_elem_of_singleton, (Hseen x).
        split; [naive_solver|]. intros [[Hx| ->] Hne]; [done|].
        split; [|done]. apply Hseen.
        destruct (decide (link a ∈ seen)); [done|]. naive_solver. }
      exists seen'. simpl. by rewrite <- !app_assoc in *.
Qed.

(** *** The keyword loop and the category loop *)

Lemma keywords_loop_run category n keywords : ∀ acc seen earlier (w : world),
  seen_agrees seen earlier →
  ∃ seen' tr,
    keywords_loop category n keywords (acc, seen) w =
      (inr (acc ++ (with_category category
                      <$> first_occurrences earlier
                            (returned_articles
                               (ask_keywords (ddgs w) keywords n).1)),
            seen'),
       {| ddgs := (ask_keywords (ddgs w) keywords n).2; trace := tr |}).
Proof.
  induction keywords as [|keyword rest IH];
    intros acc seen earlier w Hseen; simpl.
  - exists seen, (trace w). unfold Py.ret. rewrite app_nil_r. by destruct w.
  - unfold Py.bind.
    destruct (search_news_run keyword n "w" w) as (tr1 & ->).
    destruct (ddgs_news (ddgs w) keyword "us-en" "moderate" "w" n)
      as [answer s1] eqn:Hcall; simpl.
    destruct (dedup_fold category (articles_of_call (keyword, answer))
                acc seen earlier Hseen) as (seen1 & -> & Hseen1).
    destruct (IH (acc ++ (with_category category <$>
                    first_occurrences earlier
                      (articles_of_call (keyword, answer))))
                seen1 (earlier ++ (link <$> articles_of_call (keyword, answer)))
                {| ddgs := s1; trace := tr1 |} Hseen1)
      as (seen' & tr & ->).
    simpl. destruct (ask_keywords s1 rest n) as [answers s2]; simpl.
    exists seen', tr. unfold returned_articles; simpl.
    by rewrite first_occurrences_app, fmap_app, app_assoc.
Qed.

Lemma topics_loop_run n topics : ∀ all_results (w : world),
  ∃ tr,
    topics_loop n topics all_results w =
      (inr (foldl store_entry all_results
              (category_result <$> (ask_topics (ddgs w) topics n).1)),
       {| ddgs := (ask_topics (ddgs w) topics n).2; trace := tr |}).
Proof.
  induction topics as [|[category keywords] rest IH];
    intros all_results w; simpl.
  - exists (trace w). unfold Py.ret. by destruct w.
  - unfold Py.bind, emit, Py.modify; simpl.
    destruct (keywords_loop_run category n keywords [] ∅ []
                {| ddgs := ddgs w; trace := trace w ++ [ELogCategory category] |})
      as (seen' & tr1 & ->); [apply seen_agrees_empty|]. simpl.
    destruct (ask_keywords (ddgs w) keywords n) as [answers s1]; simpl.
    match goal with
    | |- context [topics_loop n rest ?d ?w1] =>
        destruct (IH d w1) as (tr & ->)
    end. simpl.
    destruct (ask_topics s1 rest n) as [others s2]; simpl.
    by exists tr.
Qed.

(** *** The provider is asked once per keyword, in order *)

Lemma ask_keywords_queries s keywords n :
  (ask_keywords s keywords n).1.*1 = keywords.
Proof.
  revert s. induction keywords as [|k ks IH]; intros s; simpl; [done|].
  destruct (ddgs_news _ _ _ _ _ _) as [answer s1].
  specialize (IH s1). destruct (ask_keywords s1 ks n) as [answers s2].
  cbn [fst fmap list_fmap]. f_equal. exact IH.
Qed.

Lemma ask_topics_entries s topics n :
  Forall2 (λ topic entry, entry.1 = topic.1 ∧ entry.2.*1 = topic.2)
    topics (ask_topics s topics n).1.
Proof.
  revert s. induction topics as [|[category keywords] rest IH]; intros s;
    simpl; [constructor|].
  pose proof (ask_keywords_queries s keywords n) as Hq.
  destruct (ask_keywords s keywords n) as [answers s1].
  specialize (IH s1). destruct (ask_topics s1 rest n) as [others s2].
  simpl in *. by constructor.
Qed.

Lemma ask_topics_categories s topics n :
  (category_result <$> (ask_topics s topics n).1).*1 = topics.*1.
Proof.
  induction (ask_topics_entries s topics n) as [|t e ts es [He _] _ IH];
    [done|].
  rewrite !fmap_cons. f_equal; [exact He|exact IH].
Qed.

(** *** The result dictionary *)

Lemma dict_setitem_fresh {V} (d : list (string * V)) k v :
  k ∉ d.*1 → dict_setitem d k v = d ++ [(k, v)].
Proof.
  induction d as [|[k' v'] d IH]; simpl; intros Hk; [done|].
  apply not_elem_of_cons in Hk as [Hne Hk].
  destruct (String.eqb_spec k k'); [done|]. by rewrite IH.
Qed.

Lemma foldl_store_entry_fresh entries : ∀ d,
  NoDup (d.*1 ++ entries.*1) → foldl store_entry d entries = d ++ entries.
Proof.
  induction entries as [|[k v] es IH]; intros d Hnd; simpl.
  - by rewrite app_nil_r.
  - unfold store_entry at 2; simpl.
    apply NoDup_app in Hnd as (Hd & Hdis & Hes). simpl in *.
    rewrite dict_setitem_fresh by (intros Hin; eapply Hdis; [done|left]).
    rewrite IH.
    + by rewrite <- app_assoc.
    + rewrite fmap_app; simpl. rewrite <- app_assoc; simpl.
      apply NoDup_app. split; [done|]. split; [|done].
      intros x Hx Hin. by apply (Hdis x).
Qed.

Lemma dict_setitem_Forall {V} (P : string * V → Prop) d k v :
  Forall P d → P (k, v) → Forall P (dict_setitem d k v).
Proof.
  intros Hd Hkv. induction Hd as [|[k' v'] d Hx Hd IH]; simpl.
  - by constructor.
  - destruct (String.eqb_spec k k') as [->|]; by constructor.
Qed.

Lemma foldl_store_entry_Forall (P : string * list strdict → Prop) entries :
  ∀ d, Forall P d → Forall P entries → Forall P (foldl store_entry d entries).
Proof.
  induction entries as [|[k v] es IH]; intros d Hd Hes; simpl; [done|].
  apply Forall_cons in Hes as [Hkv Hes].
  apply IH; [|done]. by apply dict_setitem_Forall.
Qed.

Lemma dict_getitem_lookup {V} (d : list (string * V)) i k v :
  NoDup d.*1 → d !! i = Some (k, v) → dict_getitem d k = Some v.
Proof.
  revert i. induction d as [|[k' v'] d IH]; intros i Hnd Hi; [done|].
  apply NoDup_cons in Hnd as [Hk' Hnd]. simpl.
  destruct i as [|i]; simpl in Hi.
  - simplify_eq. by rewrite String.eqb_refl.
  - destruct (String.eqb_spec k k') as [->|].
    + destruct Hk'. apply list_elem_of_fmap. exists (k', v).
      split; [done|]. by eapply list_elem_of_lookup_2.
    + by eapply IH.
Qed.

(** *** What first-occurrence filtering keeps *)

Lemma first_occurrences_links earlier articles :
  Forall (λ a, link a ≠ "" ∧ link a ∉ earlier)
    (first_occurrences earlier articles).
Proof.
  revert earlier. induction articles as [|a l IH]; intros earlier; simpl;
    [constructor|].
  assert (Forall (λ b, link b ≠ "" ∧ link b ∉ earlier)
            (first_occurrences (earlier ++ [link a]) l)) as Hrest.
  { eapply Forall_impl; [apply IH|]. simpl. intros b [? Hb].
    split; [done|]. intros Hin. apply Hb, elem_of_app. by left. }
  case_decide; [by constructor|done].
Qed.

Lemma first_occurrences_NoDup earlier articles :
  NoDup (link <$> first_occurrences earlier articles).
Proof.
  revert earlier. induction articles as [|a l IH]; intros earlier; simpl;
    [constructor|].
  case_decide; [|apply IH]. rewrite fmap_cons. constructor; [|apply IH].
  intros Hin. apply list_elem_of_fmap in Hin as (b & Hb & Hin).
  pose proof (first_occurrences_links (earlier ++ [link a]) l) as Hall.
  rewrite Forall_forall in Hall. destruct (Hall b Hin) as [_ Hnot].
  apply Hnot, elem_of_app. right. rewrite Hb. by left.
Qed.

Lemma first_occurrences_sublist earlier articles :
  sublist (first_occurrences earlier articles) articles.
Proof.
  revert earlier. induction articles as [|a l IH]; intros earlier; simpl;
    [constructor|].
  case_decide; [by apply sublist_skip|by apply sublist_cons].
Qed.

Lemma dict_getitem_is_Some {V} (d : list (string * V)) k :
  k ∈ d.*1 → is_Some (dict_getitem d k).
Proof.
  induction d as [|[k' v'] d IH]; simpl; intros Hk.
  - by apply elem_of_nil in Hk.
  - destruct (String.eqb_spec k k'); [by eexists|].
    apply elem_of_cons in Hk as [?|Hk]; [done|by apply IH].
Qed.

Lemma link_make_article query result :
  link (make_article query result) = dict_get result "url" "".
Proof. unfold link, make_article, dict_get at 1. by simplify_map_eq. Qed.

Lemma make_article_fields query result :
  make_article query result !! "title" = Some (dict_get result "title" "")
  ∧ make_article query result !! "link" = Some (dict_get result "url" "")
  ∧ make_article query result !! "snippet" = Some (dict_get result "body" "")
  ∧ make_article query result !! "source" = Some (dict_get result "source" "")
  ∧ make_article query result !! "date" = Some (dict_get result "date" "")
  ∧ make_article query result !! "image" = Some (dict_get result "image" "")
  ∧ make_article query result !! "query_category" = Some query
  ∧ make_article query result !! "category" = None.
Proof. unfold make_article. repeat split; by simplify_map_eq. Qed.

(** The run of the aggregator, read against the provider's answers. *)
Lemma search_multiple_topics_run topics n (w : world) :
  ∃ tr,
    search_multiple_topics topics n w =
      (inr (foldl store_entry []
              (category_result <$> (ask_topics (ddgs w) topics n).1)),
       {| ddgs := (ask_topics (ddgs w) topics n).2; trace := tr |}).
Proof. apply topics_loop_run. Qed.

Lemma search_multiple_topics_run_NoDup topics n (w : world) :
  NoDup topics.*1 →
  ∃ tr,
    search_multiple_topics topics n w =
      (inr (category_result <$> (ask_topics (ddgs w) topics n).1),
       {| ddgs := (ask_topics (ddgs w) topics n).2; trace := tr |}).
Proof.
  intros Hnd. destruct (search_multiple_topics_run topics n w) as (tr & ->).
  exists tr. rewrite foldl_store_entry_fresh; [done|].
  simpl. by rewrite ask_topics_categories.
Qed.

(** Every entry of the result is the expected entry of some category. *)
Lemma search_multiple_topics_entries (P : string * list strdict → Prop)
  topics n (w : world) :
  (∀ entry, P (category_result entry)) →
  ∃ res w', search_multiple_topics topics n w = (inr res, w') ∧ Forall P res.
Proof.
  intros HP. destruct (search_multiple_topics_run topics n w) as (tr & ->).
  do 2 eexists. split; [done|].
  apply foldl_store_entry_Forall; [constructor|].
  apply Forall_fmap, Forall_forall. intros entry _. apply HP.
Qed.

Lemma returned_articles_nil calls :
  Forall (λ call, articles_of_call call = []) calls →
  returned_articles calls = [].
Proof.
  unfold returned_articles. induction 1 as [|c cs Hc _ IH]; [done|].
  rewrite fmap_cons. simpl. by rewrite Hc, IH.
Qed.

(** C2. The result has the keys of the topic set, in the same order, each
    bound to a list; a category whose provider calls all failed or came
    back empty is bound to the empty list. *)
Theorem search_multiple_topics_keys topics n (w : world) :
  NoDup topics.*1 →
  ∃ res w',
    search_multiple_topics topics n w = (inr res, w')
    ∧ res.*1 = topics.*1
    ∧ (∀ category, category ∈ topics.*1 →
         is_Some (dict_getitem res category))
    ∧ (∀ i category keywords,
         topics !! i = Some (category, keywords) →
         ∃ calls,
           (ask_topics (ddgs w) topics n).1 !! i = Some (category, calls)
           ∧ calls.*1 = keywords
           ∧ (Forall (λ call, articles_of_call call = []) calls →
                dict_getitem res category = Some [])
           ∧ (Forall (λ call, ∃ e, call.2 = inl e) calls →
                dict_getitem res category = Some [])).
Proof.
  intros Hnd.
  destruct (search_multiple_topics_run_NoDup topics n w Hnd) as (tr & ->).
  do 2 eexists. split; [done|].
  pose proof (ask_topics_categories (ddgs w) topics n) as Hkeys.
  split; [done|]. split.
  { intros category Hin. apply dict_getitem_is_Some. by rewrite Hkeys. }
  intros i category keywords Hi.
  pose proof (ask_topics_entries (ddgs w) topics n) as Hent.
  destruct (Forall2_lookup_l _ _ _ _ _ Hent Hi)
    as ([category' calls] & Hcalls & Hc & Hq). simpl in *. subst category'.
  exists calls. split; [done|]. split; [done|].
  assert (Forall (λ call, articles_of_call call = []) calls →
          dict_getitem
            (category_result <$> (ask_topics (ddgs w) topics n).1) category
            = Some []) as Hempty.
  { intros Hnone. apply dict_getitem_lookup with i; [by rewrite Hkeys|].
    rewrite list_lookup_fmap, Hcalls. unfold category_result. simpl.
    by rewrite (returned_articles_nil _ Hnone). }
  split; [done|]. intros Hfail. apply Hempty.
  eapply Forall_impl; [done|]. simpl. intros [q a] [e He].
  unfold articles_of_call. simpl in *. by rewrite He.
Qed.

(** C3. In every category's list of the result, the links are pairwise
    distinct. *)
Theorem search_multiple_topics_links_distinct topics n (w : world) :
  ∃ res w',
    search_multiple_topics topics n w = (inr res, w')
    ∧ Forall (λ entry, NoDup (link <$> entry.2)) res.
Proof.
  apply search_multiple_topics_entries. intros [category calls].
  unfold category_result; simpl. rewrite <- list_fmap_compose.
  rewrite (list_fmap_ext _ link
             (first_occurrences [] (returned_articles calls)))
    by (intros; apply link_with_category).
  apply first_occurrences_NoDup.
Qed.

(** The deduplication loop never appends an article without a link. *)
Lemma dedup_fold_links category articles : ∀ acc seen,
  Forall (λ a, ∃ l, a !! "link" = Some l ∧ l ≠ "") acc →
  Forall (λ a, ∃ l, a !! "link" = Some l ∧ l ≠ "")
    (foldl (dedup_step category) (acc, seen) articles).1.
Proof.
  induction articles as [|a l IH]; intros acc seen Hacc; simpl; [done|].
  rewrite dedup_step_decide. case_decide as Hk; [|by apply IH].
  apply IH. apply Forall_app. split; [done|]. constructor; [|constructor].
  destruct Hk as [Hne _]. unfold with_category.
  rewrite lookup_insert_ne by done.
  unfold link, dict_get in Hne. destruct (a !! "link") as [l'|]; [|done].
  by exists l'.
Qed.

(** C7. No article of the result has an empty or a missing link; the
    deduplication loop itself drops such an article whatever list of
    articles it is run on. *)
Theorem search_multiple_topics_no_empty_link topics n (w : world) :
  (∃ res w',
     search_multiple_topics topics n w = (inr res, w')
     ∧ Forall (λ entry,
         Forall (λ a, ∃ l, a !! "link" = Some l ∧ l ≠ "") entry.2) res)
  ∧ (∀ category (articles : list strdict) seen,
       Forall (λ a, ∃ l, a !! "link" = Some l ∧ l ≠ "")
         (foldl (dedup_step category) ([], seen) articles).1).
Proof.
  split; [|intros; by apply dedup_fold_links].
  apply search_multiple_topics_entries. intros [category calls].
  unfold category_result; simpl.
  pose proof (dedup_fold_links category (returned_articles calls) [] ∅
                ltac:(constructor)) as Hall.
  destruct (dedup_fold category (returned_articles calls) [] ∅ []
              seen_agrees_empty) as (seen' & Heq & _).
  rewrite Heq in Hall. done.
Qed.

(** C9. Every article of the result carries, in its [category] field, the
    key under which it is listed. *)
Theorem search_multiple_topics_category_field topics n (w : world) :
  ∃ res w',
    search_multiple_topics topics n w = (inr res, w')
    ∧ Forall (λ entry,
        Forall (λ a, a !! "category" = Some entry.1) entry.2) res.
Proof.
  apply search_multiple_topics_entries. intros [category calls].
  unfold category_result; simpl.
  apply Forall_fmap, Forall_forall. intros a _. simpl.
  unfold with_category. by rewrite lookup_insert_eq.
Qed.

(** C10. [search_news] always returns a list: the empty one when the
    provider raises, otherwise one article per provider result, in order,
    each with the seven fields bound, a field the provider left out being
    bound to the empty string. *)
Theorem search_news_total query n period (w : world) :
  ∃ articles w',
    search_news query n period w = (inr articles, w')
    ∧ match (ddgs_news (ddgs w) query "us-en" "moderate" period n).1 with
      | inl _ => articles = []
      | inr results =>
          Forall2 (λ (result article : strdict),
              article !! "title" = Some (default "" (result !! "title"))
              ∧ article !! "link" = Some (default "" (result !! "url"))
              ∧ article !! "snippet" = Some (default "" (result !! "body"))
              ∧ article !! "source" = Some (default "" (result !! "source"))
              ∧ article !! "date" = Some (default "" (result !! "date"))
              ∧ article !! "image" = Some (default "" (result !! "image"))
              ∧ article !! "query_category" = Some query)
            results articles
      end.
Proof.
  destruct (search_news_run query n period w) as (tr & ->).
  do 2 eexists. split; [done|].
  destruct (ddgs_news _ _ _ _ _ _).1 as [e|results]; [done|].
  unfold articles_of_call; simpl.
  apply Forall2_fmap_r, Forall_Forall2_diag, Forall_forall.
  intros result _.
  destruct (make_article_fields query result)
    as (? & ? & ? & ? & ? & ? & ? & _).
  unfold dict_get in *. unfold default.
  repeat split; done.
Qed.

Lemma elem_of_concat {A} (x : A) (ls : list (list A)) :
  x ∈ concat ls ↔ ∃ l, x ∈ l ∧ l ∈ ls.
Proof.
  induction ls as [|l0 ls IH]; simpl.
  - split; [by intros ?%elem_of_nil|]. by intros (l & _ & ?%elem_of_nil).
  - rewrite elem_of_app, IH. split.
    + intros [?|(l & ? & ?)]; [exists l0|exists l];
        (split; [done|]); [by left|by right].
    + intros (l & Hx & [->|?]%elem_of_cons); [by left|right; by exists l].
Qed.

Lemma returned_articles_successful calls :
  returned_articles calls = concat (successful_results calls).
Proof.
  unfold returned_articles, successful_results.
  induction calls as [|[q [e|results]] cs IH]; [done| |];
    rewrite fmap_cons; cbn [omap list_omap concat articles_of_call snd fst];
    by rewrite IH.
Qed.

(** An article is kept exactly when it stands at the first position that
    carries its link, and that link is not empty. *)
Lemma first_occurrences_first articles : ∀ earlier a,
  a ∈ first_occurrences earlier articles ↔
  ∃ j, articles !! j = Some a ∧ link a ≠ "" ∧ (link a ∉ earlier)
       ∧ ∀ j' a', (j' < j)%nat → articles !! j' = Some a' → link a' ≠ link a.
Proof.
  induction articles as [|a0 l IH]; intros earlier a; simpl.
  { split; [by intros ?%elem_of_nil|]. by intros (j & ? & _). }
  assert (a ∈ first_occurrences (earlier ++ [link a0]) l ↔
          ∃ j, (a0 :: l) !! Datatypes.S j = Some a ∧ link a ≠ ""
               ∧ (link a ∉ earlier)
               ∧ ∀ j' a', (j' < Datatypes.S j)%nat →
                   (a0 :: l) !! j' = Some a' → link a' ≠ link a) as Hrest.
  { rewrite IH. split.
    - intros (j & Hj & Hne & Hnew & Hfirst). exists j.
      rewrite elem_of_app, list_elem_of_singleton in Hnew.
      repeat split; [done|done|naive_solver|].
      intros [|j'] a' Hlt Ha'; simpl in Ha'; [naive_solver|].
      apply (Hfirst j'); [lia|done].
    - intros (j & Hj & Hne & Hnew & Hfirst). exists j.
      repeat split; [done|done| |].
      + rewrite elem_of_app, list_elem_of_singleton.
        intros [?|Heq]; [done|]. by apply (Hfirst 0%nat a0); [lia|..].
      + intros j' a' Hlt Ha'.
        apply (Hfirst (Datatypes.S j')); [lia|done]. }
  split.
  - intros Hin.
    case_decide as Hk.
    + apply elem_of_cons in Hin as [->|Hin].
      * exists 0%nat. repeat split; [naive_solver..|]. intros; lia.
      * apply Hrest in Hin as (j & ?). by exists (Datatypes.S j).
    + apply Hrest in Hin as (j & ?). by exists (Datatypes.S j).
  - intros ([|j] & Hj & Hne & Hnew & Hfirst).
    + simpl in Hj. simplify_eq. rewrite decide_True by done. by left.
    + assert (a ∈ first_occurrences (earlier ++ [link a0]) l) as Hin
        by (apply Hrest; eauto).
      case_decide; [by right|done].
Qed.

(** C5. A keyword whose provider call raises contributes nothing and
    stops nothing: the aggregator returns normally, every keyword of every
    category has been asked in order, and each category is bound to the
    first-occurrence filtering of the concatenated results of its
    successful calls. *)
Theorem search_multiple_topics_failure_isolated topics n (w : world) :
  NoDup topics.*1 →
  ∃ res w',
    search_multiple_topics topics n w = (inr res, w')
    ∧ ∀ i category keywords,
        topics !! i = Some (category, keywords) →
        ∃ calls,
          (ask_topics (ddgs w) topics n).1 !! i = Some (category, calls)
          ∧ calls.*1 = keywords
          ∧ dict_getitem res category =
              Some (with_category category
                      <$> first_occurrences []
                            (concat (successful_results calls))).
Proof.
  intros Hnd.
  destruct (search_multiple_topics_run_NoDup topics n w Hnd) as (tr & ->).
  do 2 eexists. split; [done|].
  intros i category keywords Hi.
  pose proof (ask_topics_entries (ddgs w) topics n) as Hent.
  destruct (Forall2_lookup_l _ _ _ _ _ Hent Hi)
    as ([category' calls] & Hcalls & Hc & Hq). simpl in *. subst category'.
  exists calls. split; [done|]. split; [done|].
  apply dict_getitem_lookup with i;
    [by rewrite ask_topics_categories|].
  rewrite list_lookup_fmap, Hcalls. unfold category_result. simpl.
  by rewrite returned_articles_successful.
Qed.

(** C4. Each category is bound to the articles the provider returned for
    its keywords, taken in keyword order and then in provider order, of
    which only the first one carrying each non-empty link is kept; a kept
    article has every field it came with, unchanged.  With keywords q1 and
    q2 answered by links [x, y] and [y, z], the category gets the
    articles of x, of y as q1 returned it, and of z, in that order. *)
Theorem search_multiple_topics_first_wins :
  (∀ topics n (w : world),
     NoDup topics.*1 →
     ∃ res w',
       search_multiple_topics topics n w = (inr res, w')
       ∧ ∀ i category keywords,
           topics !! i = Some (category, keywords) →
           ∃ calls kept,
             (ask_topics (ddgs w) topics n).1 !! i = Some (category, calls)
             ∧ calls.*1 = keywords
             ∧ dict_getitem res category
               = Some (with_category category <$> kept)
             ∧ sublist kept (returned_articles calls)
             ∧ (∀ a, a ∈ kept ↔
                  ∃ j, returned_articles calls !! j = Some a
                       ∧ link a ≠ ""
                       ∧ ∀ j' a', (j' < j)%nat →
                           returned_articles calls !! j' = Some a' →
                           link a' ≠ link a)
             ∧ (∀ a key value, a ∈ kept → a !! key = Some value →
                  with_category category a !! key = Some value))
  ∧ (∀ n (w : world) s1 s2 x y z (rx ry ry' rz : strdict),
       x ≠ "" → y ≠ "" → z ≠ "" → x ≠ y → y ≠ z → x ≠ z →
       ddgs_news (ddgs w) "q1" "us-en" "moderate" "w" n = (inr [rx; ry], s1) →
       ddgs_news s1 "q2" "us-en" "moderate" "w" n = (inr [ry'; rz], s2) →
       rx !! "url" = Some x → ry !! "url" = Some y →
       ry' !! "url" = Some y → rz !! "url" = Some z →
       ∃ w',
         search_multiple_topics [("catA", ["q1"; "q2"])] n w =
           (inr [("catA",
                  [with_category "catA" (make_article "q1" rx);
                   with_category "catA" (make_article "q1" ry);
                   with_category "catA" (make_article "q2" rz)])], w')).
Proof.
  split.
  - intros topics n w Hnd.
    destruct (search_multiple_topics_run_NoDup topics n w Hnd) as (tr & ->).
    do 2 eexists. split; [done|].
    intros i category keywords Hi.
    pose proof (ask_topics_entries (ddgs w) topics n) as Hent.
    destruct (Forall2_lookup_l _ _ _ _ _ Hent Hi)
      as ([category' calls] & Hcalls & Hc & Hq). simpl in *. subst category'.
    exists calls, (first_occurrences [] (returned_articles calls)).
    split; [done|]. split; [done|]. split.
    { apply dict_getitem_lookup with i;
        [by rewrite ask_topics_categories|].
      by rewrite list_lookup_fmap, Hcalls. }
    split; [apply first_occurrences_sublist|]. split.
    { intros a. rewrite first_occurrences_first.
      split; intros (j & ? & ? & ?); exists j; [naive_solver|].
      repeat split; [done|done|by intros ?%elem_of_nil|done]. }
    intros a key value Hin Hkey.
    assert (a ∈ returned_articles calls) as Hret
      by (eapply elem_of_sublist; [done|apply first_occurrences_sublist]).
    unfold returned_articles in Hret.
    apply elem_of_concat in Hret as (arts & Ha & Harts).
    apply list_elem_of_fmap in Harts as ([q answer] & -> & _).
    unfold articles_of_call in Ha; simpl in Ha.
    destruct answer as [e|results]; [by apply elem_of_nil in Ha|].
    apply list_elem_of_fmap in Ha as (result & -> & _).
    unfold with_category.
    destruct (decide (key = "category")) as [->|Hne].
    + destruct (make_article_fields q result) as (_&_&_&_&_&_&_&Hnone).
      congruence.
    + by rewrite lookup_insert_ne.
  - intros n w s1 s2 x y z rx ry ry' rz Hx Hy Hz Hxy Hyz Hxz
      Hq1 Hq2 Hrx Hry Hry' Hrz.
    destruct (search_multiple_topics_run_NoDup [("catA", ["q1"; "q2"])] n w)
      as (tr & ->); [apply NoDup_singleton|].
    eexists. f_equal. simpl. rewrite Hq1, Hq2. simpl.
    unfold category_result, returned_articles, articles_of_call; simpl.
    rewrite !link_make_article. unfold dict_get.
    rewrite Hrx, Hry, Hry', Hrz. simpl.
    rewrite decide_True by (split; [done|by intros ?%elem_of_nil]).
    rewrite decide_True by (split; [done|set_solver]).
    rewrite decide_False by (intros [_ ?]; set_solver).
    rewrite decide_True by (split; [done|set_solver]).
    done.
Qed.

End search_properties.

(** * The theorems at concrete inputs *)

Section witnesses.
Import Examples.

Lemma generate_rate_limit_exhausted_witness :
  ∃ w', GitHubModels.generate (constant_backend 429 None) no_text
          example_client example_request (GitHubModels.World tt []) =
          (inl (GitHubModels.RuntimeError
                  "API rate limit exceeded after 3 retries"), w')
        ∧ GitHubModels.sleeps (GitHubModels.trace w') = [10; 20; 30]
        ∧ length (GitHubModels.posts (GitHubModels.trace w')) = 3%nat.
Proof.
  destruct (generate_rate_limit_exhausted (constant_backend 429 None) no_text
              example_client example_request (GitHubModels.World tt []))
    as (b' & evs & Hrun & _ & Hevs & _ & _ & _).
  - simpl. lia.
  - simpl. lia.
  - simpl. repeat (eexists _, _; split; [reflexivity|split; [reflexivity|]]).
    exact I.
  - eexists. split; [exact Hrun|]. rewrite Hevs. split; reflexivity.
Defined.

Lemma generate_auth_failure_no_retry_witness :
  GitHubModels.generate (constant_backend 401 None) no_text
    example_client example_request (GitHubModels.World tt []) =
    (inl (GitHubModels.RuntimeError "Invalid GitHub token."),
     GitHubModels.World tt
       [GitHubModels.post_event example_client
          (GitHubModels.build_payload example_client example_request)])
  ∧ GitHubModels.generate (constant_backend 403 None) no_text
      example_client example_request (GitHubModels.World tt []) =
      (inl (GitHubModels.RuntimeError "GitHub Copilot access required."),
       GitHubModels.World tt
         [GitHubModels.post_event example_client
            (GitHubModels.build_payload example_client example_request)]).
Proof.
  split.
  - apply (generate_auth_failure_no_retry (constant_backend 401 None) no_text
             example_client example_request (GitHubModels.World tt [])
             (GitHubModels.Response 401 None) tt);
      [simpl; lia|reflexivity|reflexivity].
  - apply (generate_auth_failure_no_retry (constant_backend 403 None) no_text
             example_client example_request (GitHubModels.World tt [])
             (GitHubModels.Response 403 None) tt);
      [simpl; lia|reflexivity|reflexivity].
Defined.

Lemma generate_malformed_response_no_retry_witness :
  ∃ e, GitHubModels.generate (constant_backend 200 (Some empty_choices))
         no_text example_client example_request (GitHubModels.World tt []) =
         (inl e,
          GitHubModels.World tt
            [GitHubModels.post_event example_client
               (GitHubModels.build_payload example_client example_request);
             GitHubModels.ELogError e])
       ∧ GitHubModels.error_kind e = GitHubModels.MalformedResponse.
Proof.
  apply (generate_malformed_response_no_retry
           (constant_backend 200 (Some empty_choices)) no_text
           example_client example_request (GitHubModels.World tt [])
           (GitHubModels.Response 200 (Some empty_choices)) tt);
    [simpl; lia|reflexivity|simpl; lia|reflexivity].
Defined.

Example generate_returns_content :
  (GitHubModels.generate
     (constant_backend 200
        (Some (GitHubModels.JObj
           [("choices",
             GitHubModels.JArr
               [GitHubModels.JObj
                  [("message",
                    GitHubModels.JObj
                      [("content", GitHubModels.JStr "OK")])]])])))
     no_text example_client example_request (GitHubModels.World tt [])).1
  = inr (GitHubModels.JStr "OK").
Proof. reflexivity. Qed.

Lemma example_topics_NoDup : NoDup example_topics.*1.
Proof.
  simpl. apply NoDup_cons. split; [|apply NoDup_singleton].
  intros Hin. apply list_elem_of_singleton in Hin. discriminate.
Defined.

Lemma search_multiple_topics_keys_witness :
  ∃ res w',
    WebSearch.search_multiple_topics example_provider example_topics 8
      (WebSearch.World 0%nat []) = (inr res, w')
    ∧ res.*1 = ["catA"; "catB"]
    ∧ WebSearch.dict_getitem res "catB" = Some [].
Proof.
  destruct (search_multiple_topics_keys example_provider example_topics 8
              (WebSearch.World 0%nat []) example_topics_NoDup)
    as (res & w' & Hrun & Hkeys & _ & Hempty).
  exists res, w'. split; [exact Hrun|]. split; [exact Hkeys|].
  destruct (Hempty 1%nat "catB" ["q3"] eq_refl)
    as (calls & Hcalls & _ & _ & Hfail).
  apply Hfail. simpl in Hcalls. injection Hcalls as <-.
  apply Forall_cons. split; [by eexists|apply Forall_nil_2].
Defined.

Lemma search_multiple_topics_failure_isolated_witness :
  ∃ res w' kept,
    WebSearch.search_multiple_topics example_provider
      [("catA", ["q1"; "q3"; "q2"])] 8 (WebSearch.World 0%nat [])
      = (inr res, w')
    ∧ WebSearch.dict_getitem res "catA" = Some kept
    ∧ WebSearch.link <$> kept = ["x"; "y"; "z"].
Proof.
  destruct (search_multiple_topics_failure_isolated example_provider
              [("catA", ["q1"; "q3"; "q2"])] 8 (WebSearch.World 0%nat [])
              (NoDup_singleton "catA"))
    as (res & w' & Hrun & Hres).
  destruct (Hres 0%nat "catA" ["q1"; "q3"; "q2"] eq_refl)
    as (calls & Hcalls & _ & Hget).
  simpl in Hcalls. injection Hcalls as <-.
  eexists res, w', _. split; [exact Hrun|]. split; [exact Hget|].
  vm_compute. reflexivity.
Defined.

Lemma search_multiple_topics_first_wins_witness :
  ∃ w',
    WebSearch.search_multiple_topics example_provider
      [("catA", ["q1"; "q2"])] 8 (WebSearch.World 0%nat []) =
      (inr [("catA",
             [WebSearch.with_category "catA"
                (WebSearch.make_article "q1" {["url" := "x"]});
              WebSearch.with_category "catA"
                (WebSearch.make_article "q1"
                   {["url" := "y"; "title" := "first"]});
              WebSearch.with_category "catA"
                (WebSearch.make_article "q2" {["url" := "z"]})])], w').
Proof.
  apply (proj2 (search_multiple_topics_first_wins example_provider)
           8 (WebSearch.World 0%nat []) 1%nat 2%nat "x" "y" "z"
           {["url" := "x"]} {["url" := "y"; "title" := "first"]}
           {["url" := "y"; "title" := "second"]} {["url" := "z"]});
    (discriminate || reflexivity).
Defined.

End witnesses.

(** * Further properties of the completion client *)

Section generate_more.
Import GitHubModels ClientMore.
Context {B : Type}.
Variable post : B → payload → (transport_error + response) * B.
Variable str_HTTPError : response → string.

Abbreviation generate := (generate post str_HTTPError).
Abbreviation attempt_loop := (attempt_loop post str_HTTPError).
Abbreviation attempt_body := (attempt_body post).
Abbreviation world := (@world B).

Lemma extract_content_errors data e :
  extract_content data = inl e →
  (∃ k, e = KeyError k) ∨ e = IndexError ∨ e = TypeError.
Proof.
  unfold extract_content, getitem_str, getitem_0. intros H.
  repeat (match goal with
          | H : context [match ?x with _ => _ end] |- _ => destruct x eqn:?
          end; simplify_eq/=; try by eauto).
Qed.

Lemma extract_content_content_of data v :
  extract_content data = inr v ↔ content_of (Some data) = Some v.
Proof.
  unfold content_of, extract_content, getitem_str, getitem_0.
  split; intros H;
  repeat (match goal with
          | H : context [match ?x with _ => _ end] |- _ => destruct x eqn:?
          | |- context [match ?x with _ => _ end] => destruct x eqn:?
          end; simplify_eq/=; try done).
Qed.

(** One round of the loop either goes on with the remaining attempts,
    having recorded a rate-limited attempt, or ends the call having sent
    one request and slept nothing. *)
Lemma attempt_loop_cons_cases self p attempt rest (w : world) :
  (∃ b', attempt_loop self p (attempt :: rest) w =
           attempt_loop self p rest
             {| backend := b';
                trace := trace w ++ rate_limited_attempt self p attempt |})
  ∨ (∃ res b' logs,
       attempt_loop self p (attempt :: rest) w =
         (res, {| backend := b';
                  trace := trace w ++ post_event self p :: logs |})
       ∧ posts logs = [] ∧ sleeps logs = []).
Proof.
  destruct (post (backend w) p) as [[t|r] b'] eqn:Hpost.
  { right. exists (inl (TransportError t)), b', [ELogError (TransportError t)].
    split; [|done]. simpl. unfold Py.try_except.
    rewrite (attempt_body_transport _ _ _ _ _ _ Hpost).
    unfold Py.bind, emit, Py.modify, Py.raise; simpl.
    by rewrite <- app_assoc. }
  simpl. unfold Py.try_except.
  rewrite (attempt_body_response _ _ _ _ _ _ Hpost).
  destruct (is_http_error r) eqn:Herr.
  - destruct (status_code r =? 429) eqn:H429.
    + destruct (Z.ltb_spec (baseDelay self * (attempt + 1) * 2) 0) as [Hneg|Hpos].
      * right. eexists _, b', [ELogWarning _]. split; [|done].
        unfold Py.bind, emit, Py.modify, time_sleep, Py.raise; simpl.
        apply Z.ltb_lt in Hneg. rewrite Hneg. simpl.
        by rewrite <- app_assoc.
      * left. exists b'.
        unfold Py.bind, emit, Py.modify, time_sleep; simpl.
        apply Z.ltb_ge in Hpos. rewrite Hpos. simpl.
        unfold rate_limited_attempt. by rewrite <- !app_assoc.
    + right. exists
        (inl (RuntimeError
               (if status_code r =? 401 then "Invalid GitHub token."
                else if status_code r =? 403
                     then "GitHub Copilot access required."
                     else "API error: " +:+ str_HTTPError r))), b', [].
      split; [|done]. by repeat destruct (_ =? _).
  - right. destruct (json_body r) as [data|].
    + destruct (extract_content data) as [e|v] eqn:Hex.
      * exists (inl e), b', [ELogError e]. split; [|done].
        destruct (extract_content_errors _ _ Hex) as [[k ->]|[->| ->]];
          unfold Py.bind, emit, Py.modify, Py.raise; simpl;
          by rewrite <- app_assoc.
      * by exists (inr v), b', [].
    + exists (inl JSONDecodeError), b', [ELogError JSONDecodeError].
      split; [|done].
      unfold Py.bind, emit, Py.modify, Py.raise; simpl.
      by rewrite <- app_assoc.
Qed.

Lemma posts_app tr1 tr2 : posts (tr1 ++ tr2) = posts tr1 ++ posts tr2.
Proof. unfold posts. apply omap_app. Qed.

Lemma sleeps_app tr1 tr2 : sleeps (tr1 ++ tr2) = sleeps tr1 ++ sleeps tr2.
Proof. unfold sleeps. apply omap_app. Qed.

Lemma attempt_loop_within_budget self p attempts : ∀ (w : world),
  ∃ res b' evs,
    attempt_loop self p attempts w =
      (res, {| backend := b'; trace := trace w ++ evs |})
    ∧ (length (posts evs) ≤ length attempts)%nat
    ∧ Forall (λ sent, sent = p) (posts evs)
    ∧ (length (sleeps evs) ≤ length (posts evs))%nat.
Proof.
  induction attempts as [|attempt rest IH]; intros w.
  - exists (inl (RuntimeError (rate_limit_message (maxRetries self)))),
      (backend w), []. simpl. rewrite app_nil_r.
    split; [by destruct w|]. split; [lia|]. split; [constructor|lia].
  - destruct (attempt_loop_cons_cases self p attempt rest w)
      as [(b1 & ->)|(res & b' & logs & -> & Hposts & Hsleeps)].
    + destruct (IH {| backend := b1;
                      trace := trace w ++ rate_limited_attempt self p attempt |})
        as (res & b' & evs & -> & Hn & Hall & Hs).
      exists res, b', (rate_limited_attempt self p attempt ++ evs).
      split; [cbn [trace backend]; by rewrite <- app_assoc|].
      rewrite posts_app, sleeps_app.
      change (posts (rate_limited_attempt self p attempt)) with [p].
      change (sleeps (rate_limited_attempt self p attempt))
        with [baseDelay self * (attempt + 1) * 2].
      simpl. split; [lia|]. split; [by constructor|lia].
    + exists res, b', (post_event self p :: logs).
      split; [done|].
      change (post_event self p :: logs) with ([post_event self p] ++ logs).
      rewrite posts_app, sleeps_app, Hposts, Hsleeps. simpl.
      split; [lia|]. split; [by repeat constructor|lia].
Qed.

(** X1. Whatever the backend does, [generate] ends, having sent at most
    [maxRetries] requests, all with the one payload built from the
    arguments, and having slept at most once per request sent. *)
Theorem generate_within_budget self req (w : world) :
  ∃ res b' evs,
    generate self req w =
      (res, {| backend := b'; trace := trace w ++ evs |})
    ∧ (length (posts evs) ≤ Z.to_nat (maxRetries self))%nat
    ∧ Forall (λ sent, sent = build_payload self req) (posts evs)
    ∧ (length (sleeps evs) ≤ length (posts evs))%nat.
Proof.
  destruct (attempt_loop_within_budget self (build_payload self req)
              (Py.range (maxRetries self)) w)
    as (res & b' & evs & Hrun & Hn & Hall & Hs).
  exists res, b', evs. split; [exact Hrun|].
  unfold Py.range in Hn. rewrite length_fmap, length_seq in Hn. done.
Qed.

(** X2. With a retry budget of zero or less no request is sent at all: the
    call raises the rate-limit error at once and leaves the world as it
    was. *)
Theorem generate_without_budget self req (w : world) :
  maxRetries self ≤ 0 →
  generate self req w =
    (inl (RuntimeError (rate_limit_message (maxRetries self))), w).
Proof.
  intros Hn. unfold GitHubModels.generate, Py.range.
  replace (Z.to_nat (maxRetries self)) with 0%nat by lia. done.
Qed.

(** *** After some rate-limited attempts *)

Lemma attempt_loop_skip_429 self p k : ∀ j rest (w : world) bk,
  0 ≤ baseDelay self →
  after_429 post k (backend w) p bk →
  attempt_loop self p ((Z.of_nat <$> seq j k) ++ rest) w =
    attempt_loop self p rest
      {| backend := bk;
         trace := trace w ++
           concat (rate_limited_attempt self p <$> (Z.of_nat <$> seq j k)) |}.
Proof.
  induction k as [|k IH]; intros j rest w bk Hdelay Hafter.
  - simpl in *. subst bk. rewrite app_nil_r. by destruct w.
  - destruct Hafter as (r & b1 & Hpost & Hst & Hafter).
    cbn [seq fmap list_fmap app].
    rewrite (attempt_loop_429 _ _ _ _ _ _ _ _ _ Hpost Hst) by lia.
    rewrite (IH (Datatypes.S j) rest
               {| backend := b1;
                  trace := trace w ++
                    rate_limited_attempt self p (Z.of_nat j) |}
               bk Hdelay Hafter).
    cbn [concat backend trace]. by rewrite <- app_assoc.
Qed.

Lemma range_split k n :
  Z.of_nat k < n →
  ∃ rest, Py.range n = (Z.of_nat <$> seq 0 k) ++ Z.of_nat k :: rest.
Proof.
  intros Hk. unfold Py.range.
  replace (Z.to_nat n) with (k + Datatypes.S (Z.to_nat n - Datatypes.S k))%nat
    by lia.
  rewrite seq_app, fmap_app. cbn [seq fmap list_fmap].
  by eexists.
Qed.

(** The call as a whole after [k] rate-limited attempts: it goes on with
    attempt [k] in the world those attempts have left. *)
Lemma generate_skip_429 self req k (w : world) bk :
  0 ≤ baseDelay self →
  Z.of_nat k < maxRetries self →
  after_429 post k (backend w) (build_payload self req) bk →
  ∃ rest wk,
    generate self req w =
      attempt_loop self (build_payload self req) (Z.of_nat k :: rest) wk
    ∧ backend wk = bk
    ∧ trace wk = trace w ++
        concat (rate_limited_attempt self (build_payload self req)
                  <$> (Z.of_nat <$> seq 0 k)).
Proof.
  intros Hdelay Hk Hafter. unfold GitHubModels.generate.
  destruct (range_split k _ Hk) as (rest & ->). exists rest.
  eexists. split; [by apply attempt_loop_skip_429|done].
Qed.

Lemma events_after_rate_limits self p k (logs : list event) :
  posts logs = [] → sleeps logs = [] →
  length (posts (concat (rate_limited_attempt self p
                           <$> (Z.of_nat <$> seq 0 k))
                 ++ post_event self p :: logs)) = Datatypes.S k
  ∧ sleeps (concat (rate_limited_attempt self p
                      <$> (Z.of_nat <$> seq 0 k))
            ++ post_event self p :: logs)
    = (λ attempt, baseDelay self * (attempt + 1) * 2)
        <$> (Z.of_nat <$> seq 0 k).
Proof.
  intros Hposts Hsleeps.
  change (post_event self p :: logs) with ([post_event self p] ++ logs).
  rewrite !posts_app, !sleeps_app, posts_rate_limited, sleeps_rate_limited,
    Hposts, Hsleeps.
  simpl. rewrite !app_nil_r, length_app, !length_fmap, length_seq.
  split; [simpl; lia|done].
Qed.

(** X3. A rate-limited call recovers: when [k] attempts, fewer than
    [maxRetries], are answered 429 and the next one by a well-shaped
    answer, [generate] returns the content of the first choice, after
    [k + 1] requests and the [k] backoff delays [baseDelay * 2],
    [baseDelay * 4], ... *)
Theorem generate_recovers_after_rate_limits self req k (w : world)
    bk r b' v :
  0 ≤ baseDelay self →
  Z.of_nat k < maxRetries self →
  after_429 post k (backend w) (build_payload self req) bk →
  post bk (build_payload self req) = (inr r, b') →
  is_http_error r = false →
  content_of (json_body r) = Some v →
  ∃ evs,
    generate self req w =
      (inr v, {| backend := b'; trace := trace w ++ evs |})
    ∧ length (posts evs) = Datatypes.S k
    ∧ sleeps evs = (λ attempt, baseDelay self * (attempt + 1) * 2)
                     <$> (Z.of_nat <$> seq 0 k).
Proof.
  intros Hdelay Hk Hafter Hpost Herr Hcontent.
  destruct (generate_skip_429 self req k w bk Hdelay Hk Hafter)
    as (rest & wk & -> & Hbk & Htr). subst bk.
  destruct (json_body r) as [data|] eqn:Hjson; [|done].
  apply extract_content_content_of in Hcontent.
  rewrite (attempt_loop_success _ _ _ _ _ _ _ _ _ _ _
             Hpost Herr Hjson Hcontent), Htr, <- app_assoc.
  eexists. split; [done|].
  by apply (events_after_rate_limits _ _ _ []).
Qed.

Lemma attempt_loop_other_status self p attempt rest (w : world) r b' :
  post (backend w) p = (inr r, b') →
  400 ≤ status_code r < 600 →
  status_code r ≠ 429 → status_code r ≠ 401 → status_code r ≠ 403 →
  attempt_loop self p (attempt :: rest) w =
    (inl (RuntimeError ("API error: " +:+ str_HTTPError r)),
     {| backend := b'; trace := trace w ++ [post_event self p] |}).
Proof.
  intros Hpost Hst H429 H401 H403. simpl. unfold Py.try_except.
  rewrite (attempt_body_response _ _ _ _ _ _ Hpost).
  unfold is_http_error.
  destruct (Z.leb_spec 400 (status_code r)); [|lia].
  destruct (Z.ltb_spec (status_code r) 600); [|lia]. simpl.
  destruct (Z.eqb_spec (status_code r) 429); [done|].
  destruct (Z.eqb_spec (status_code r) 401); [done|].
  by destruct (Z.eqb_spec (status_code r) 403).
Qed.

Lemma attempt_loop_transport self p attempt rest (w : world) t b' :
  post (backend w) p = (inl t, b') →
  attempt_loop self p (attempt :: rest) w =
    (inl (TransportError t),
     {| backend := b';
        trace := trace w ++
          [post_event self p; ELogError (TransportError t)] |}).
Proof.
  intros Hpost. simpl. unfold Py.try_except.
  rewrite (attempt_body_transport _ _ _ _ _ _ Hpost).
  unfold Py.bind, emit, Py.modify, Py.raise; simpl.
  by rewrite <- !app_assoc.
Qed.

(** X4. An HTTP error status other than 429, 401 and 403, at whatever attempt
    it comes, ends the call with [RuntimeError("API error: ...")]: nothing
    is logged and no further request is sent. *)
Theorem generate_other_http_error self req k (w : world) bk r b' :
  0 ≤ baseDelay self →
  Z.of_nat k < maxRetries self →
  after_429 post k (backend w) (build_payload self req) bk →
  post bk (build_payload self req) = (inr r, b') →
  400 ≤ status_code r < 600 →
  status_code r ≠ 429 → status_code r ≠ 401 → status_code r ≠ 403 →
  generate self req w =
    (inl (RuntimeError ("API error: " +:+ str_HTTPError r)),
     {| backend := b';
        trace := trace w ++
          concat (rate_limited_attempt self (build_payload self req)
                    <$> (Z.of_nat <$> seq 0 k))
          ++ [post_event self (build_payload self req)] |})
  ∧ error_kind (RuntimeError ("API error: " +:+ str_HTTPError r))
    = ProviderError.
Proof.
  intros Hdelay Hk Hafter Hpost Hst H429 H401 H403.
  destruct (generate_skip_429 self req k w bk Hdelay Hk Hafter)
    as (rest & wk & -> & Hbk & Htr). subst bk.
  split; [|done].
  by rewrite (attempt_loop_other_status _ _ _ _ _ _ _
                Hpost Hst H429 H401 H403), Htr, <- app_assoc.
Qed.

(** X5. A connection-level failure of a request, at whatever attempt it
    comes, is logged and raised again as it is; no further request is
    sent. *)
Theorem generate_transport_failure self req k (w : world) bk t b' :
  0 ≤ baseDelay self →
  Z.of_nat k < maxRetries self →
  after_429 post k (backend w) (build_payload self req) bk →
  post bk (build_payload self req) = (inl t, b') →
  ∃ evs,
    generate self req w =
      (inl (TransportError t), {| backend := b'; trace := trace w ++ evs |})
    ∧ last evs = Some (ELogError (TransportError t))
    ∧ length (posts evs) = Datatypes.S k
    ∧ sleeps evs = (λ attempt, baseDelay self * (attempt + 1) * 2)
                     <$> (Z.of_nat <$> seq 0 k).
Proof.
  intros Hdelay Hk Hafter Hpost.
  destruct (generate_skip_429 self req k w bk Hdelay Hk Hafter)
    as (rest & wk & -> & Hbk & Htr). subst bk.
  exists (concat (rate_limited_attempt self (build_payload self req)
                    <$> (Z.of_nat <$> seq 0 k))
          ++ [post_event self (build_payload self req);
              ELogError (TransportError t)]).
  split.
  - by rewrite (attempt_loop_transport _ _ _ _ _ _ _ Hpost), Htr,
      <- app_assoc.
  - split; [by rewrite last_app|].
    by apply events_after_rate_limits.
Qed.

(** X6. Rate-limited attempts before it do not change how a final answer is
    handled: a 401, a 403 or a malformed 2xx answer at attempt [k + 1]
    ends the call as it would at the first attempt, after [k + 1]
    requests and [k] backoff delays. *)
Theorem generate_failure_after_rate_limits self req k (w : world)
    bk r b' :
  0 ≤ baseDelay self →
  Z.of_nat k < maxRetries self →
  after_429 post k (backend w) (build_payload self req) bk →
  post bk (build_payload self req) = (inr r, b') →
  status_code r = 401 ∨ status_code r = 403
  ∨ (200 ≤ status_code r ≤ 299 ∧ has_content (json_body r) = false) →
  ∃ e evs,
    generate self req w =
      (inl e, {| backend := b'; trace := trace w ++ evs |})
    ∧ error_kind e =
        (if status_code r =? 401 then InvalidCredentials
         else if status_code r =? 403 then AccessDenied
         else MalformedResponse)
    ∧ length (posts evs) = Datatypes.S k
    ∧ sleeps evs = (λ attempt, baseDelay self * (attempt + 1) * 2)
                     <$> (Z.of_nat <$> seq 0 k).
Proof.
  intros Hdelay Hk Hafter Hpost Hcases.
  destruct (generate_skip_429 self req k w bk Hdelay Hk Hafter)
    as (rest & wk & -> & Hbk & Htr). subst bk.
  destruct Hcases as [Hst|[Hst|[Hst Hbody]]].
  - rewrite (attempt_loop_401 _ _ _ _ _ _ _ _ _ Hpost Hst), Htr,
      <- app_assoc.
    eexists _, _. split; [done|]. rewrite Hst. split; [done|].
    by apply (events_after_rate_limits _ _ _ []).
  - rewrite (attempt_loop_403 _ _ _ _ _ _ _ _ _ Hpost Hst), Htr,
      <- app_assoc.
    eexists _, _. split; [done|]. rewrite Hst. split; [done|].
    by apply (events_after_rate_limits _ _ _ []).
  - destruct (attempt_loop_malformed post str_HTTPError self
                (build_payload self req) (Z.of_nat k) rest wk
                r b' Hpost) as (e & -> & Hkind); [|done|].
    { unfold is_http_error.
      destruct (Z.leb_spec 400 (status_code r)); [lia|done]. }
    rewrite Htr, <- app_assoc.
    exists e. eexists. split; [done|]. rewrite Hkind.
    destruct (Z.eqb_spec (status_code r) 401); [lia|].
    destruct (Z.eqb_spec (status_code r) 403); [lia|].
    split; [done|]. by apply (events_after_rate_limits _ _ _ [ELogError e]).
Qed.

Lemma total_backoff d k :
  foldr Z.add 0
    ((λ attempt, d * (attempt + 1) * 2) <$> (Z.of_nat <$> seq 0 k))
  = d * Z.of_nat k * (Z.of_nat k + 1).
Proof.
  induction k as [|k IH]; [simpl; lia|].
  rewrite seq_S, !fmap_app, foldr_app. simpl.
  assert (∀ l a, foldr Z.add a l = foldr Z.add 0 l + a) as Hshift.
  { induction l as [|x l IHl]; intros a; simpl; [lia|].
    rewrite IHl. lia. }
  rewrite Hshift, IH. lia.
Qed.

(** X7. When every attempt is answered 429 the call has slept
    [baseDelay * maxRetries * (maxRetries + 1)] seconds in all before it
    gives up: 60 seconds for the client as constructed. *)
Theorem generate_total_backoff self req (w : world) :
  0 ≤ maxRetries self →
  0 ≤ baseDelay self →
  answers_429 post (Z.to_nat (maxRetries self)) (backend w)
    (build_payload self req) →
  ∃ e b' evs,
    generate self req w = (inl e, {| backend := b'; trace := trace w ++ evs |})
    ∧ total_sleep evs
      = baseDelay self * maxRetries self * (maxRetries self + 1).
Proof.
  intros Hretries Hdelay Hans.
  destruct (attempt_loop_all_429 post str_HTTPError self
              (build_payload self req) _ 0%nat w Hdelay Hans) as (b' & Hrun).
  eexists _, b', _. split; [exact Hrun|].
  unfold total_sleep. rewrite sleeps_rate_limited, total_backoff. lia.
Qed.

(** *** [testConnection] *)

Abbreviation testConnection := (testConnection post str_HTTPError).

(** X8. When the first answer is well shaped, [testConnection] sends the one
    request [{"Say 'OK'", max_tokens 10}] and reports the truth value of
    the content: [True] for a non-empty text, [False] for an empty one or
    for [null], although the backend has answered. *)
Theorem testConnection_reports_content self (tw : test_world) r b' v :
  0 < maxRetries self →
  post (backend (client_world tw)) (build_payload self test_request)
    = (inr r, b') →
  is_http_error r = false →
  content_of (json_body r) = Some v →
  testConnection self tw =
    (inr (json_truthy v),
     {| client_world :=
          {| backend := b';
             trace := trace (client_world tw) ++
               [post_event self
                  {| p_model := model self;
                     p_messages := [Message "user" "Say 'OK'"];
                     p_max_tokens := 10;
                     p_temperature := 3 # 10 |}] |};
        connection_test_failed := connection_test_failed tw |})
  ∧ (v = JStr "" ∨ v = JNull → json_truthy v = false)
  ∧ (∀ s, v = JStr s → s ≠ "" → json_truthy v = true).
Proof.
  intros Hretries Hpost Herr Hcontent.
  split; [|split].
  - unfold ClientMore.testConnection, GitHubModels.generate.
    destruct (range_pos _ Hretries) as (rest & ->).
    destruct (json_body r) as [data|] eqn:Hjson; [|done].
    apply extract_content_content_of in Hcontent.
    by rewrite (attempt_loop_success _ _ _ _ _ _ _ _ _ _ _
                  Hpost Herr Hjson Hcontent).
  - by intros [->| ->].
  - intros s -> Hs. simpl. by destruct s.
Qed.

(** X9. A rejected token does not make [testConnection] raise: on a 401 or a
    403 answer it returns [False] after that one request and reports the
    error. *)
Theorem testConnection_rejected self (tw : test_world) r b' :
  0 < maxRetries self →
  post (backend (client_world tw)) (build_payload self test_request)
    = (inr r, b') →
  status_code r = 401 ∨ status_code r = 403 →
  ∃ e,
    testConnection self tw =
      (inr false,
       {| client_world :=
            {| backend := b';
               trace := trace (client_world tw) ++
                 [post_event self (build_payload self test_request)] |};
          connection_test_failed := connection_test_failed tw ++ [e] |})
    ∧ e = RuntimeError (if status_code r =? 401
                        then "Invalid GitHub token."
                        else "GitHub Copilot access required.").
Proof.
  intros Hretries Hpost Hst.
  unfold ClientMore.testConnection, GitHubModels.generate.
  destruct (range_pos _ Hretries) as (rest & ->).
  destruct Hst as [Hst|Hst]; eexists.
  - rewrite (attempt_loop_401 _ _ _ _ _ _ _ _ _ Hpost Hst), Hst. done.
  - rewrite (attempt_loop_403 _ _ _ _ _ _ _ _ _ Hpost Hst), Hst. done.
Qed.

End generate_more.

(** * Further properties of the search client *)

Section search_more.
Import WebSearch WebSearchMore.
Context {S : Type}.
Variable ddgs_news :
  S → ∀ (keywords region safesearch timelimit : string) (max_results : Z),
    (exn + list strdict) * S.

Abbreviation search_news := (search_news ddgs_news).
Abbreviation keywords_loop := (keywords_loop ddgs_news).
Abbreviation topics_loop := (topics_loop ddgs_news).
Abbreviation search_multiple_topics := (search_multiple_topics ddgs_news).
Abbreviation ask_keywords := (ask_keywords ddgs_news).
Abbreviation ask_topics := (ask_topics ddgs_news).
Abbreviation world := (@world S).

(** *** The pauses *)

Lemma slept_app tr1 tr2 : slept (tr1 ++ tr2) = slept tr1 ++ slept tr2.
Proof. unfold slept. apply omap_app. Qed.

Lemma search_news_slept query n period (w : world) :
  ∃ articles evs,
    search_news query n period w =
      (inr articles,
       {| ddgs := (ddgs_news (ddgs w) query "us-en" "moderate" period n).2;
          trace := trace w ++ evs |})
    ∧ slept evs =
        match (ddgs_news (ddgs w) query "us-en" "moderate" period n).1 with
        | inr _ => [1]
        | inl _ => []
        end.
Proof.
  unfold WebSearch.search_news, Py.try_except, Py.bind, call_news, emit,
    Py.modify, Py.ret.
  destruct (ddgs_news _ _ _ _ _ _) as [[e|results] s']; simpl.
  - by eexists _, [_].
  - eexists _, [_; _]. by rewrite <- app_assoc.
Qed.

Lemma keywords_loop_slept category n keywords : ∀ st (w : world),
  ∃ res evs,
    keywords_loop category n keywords st w =
      (res, {| ddgs := (ask_keywords (ddgs w) keywords n).2;
               trace := trace w ++ evs |})
    ∧ slept evs =
        replicate
          (length (successful_results (ask_keywords (ddgs w) keywords n).1))
          1.
Proof.
  induction keywords as [|keyword rest IH]; intros st w; simpl.
  - exists (inr st), []. rewrite app_nil_r. by destruct w.
  - unfold Py.bind.
    destruct (search_news_slept keyword n "w" w)
      as (articles & evs1 & -> & Hs1).
    destruct (ddgs_news (ddgs w) keyword "us-en" "moderate" "w" n)
      as [answer s1] eqn:Hcall; simpl in *.
    destruct (IH (foldl (dedup_step category) st articles)
                {| ddgs := s1; trace := trace w ++ evs1 |})
      as (res & evs & -> & Hs).
    simpl in *. destruct (ask_keywords s1 rest n) as [answers s2]; simpl in *.
    exists res, (evs1 ++ evs). rewrite <- app_assoc. split; [done|].
    rewrite slept_app, Hs1, Hs. unfold successful_results.
    by destruct answer.
Qed.

(** All provider calls of a run, category after category. *)
Lemma topics_loop_slept n topics : ∀ all_results (w : world),
  ∃ res evs,
    topics_loop n topics all_results w =
      (res, {| ddgs := (ask_topics (ddgs w) topics n).2;
               trace := trace w ++ evs |})
    ∧ slept evs =
        replicate
          (length (successful_results
                     (concat (ask_topics (ddgs w) topics n).1.*2)))
          1.
Proof.
  induction topics as [|[category keywords] rest IH];
    intros all_results w; simpl.
  - exists (inr all_results), []. rewrite app_nil_r. by destruct w.
  - unfold Py.bind, emit, Py.modify; simpl.
    destruct (keywords_loop_slept category n keywords ([], ∅)
                {| ddgs := ddgs w;
                   trace := trace w ++ [ELogCategory category] |})
      as (res1 & evs1 & Hrun1 & Hs1). simpl in *.
    destruct (keywords_loop_run ddgs_news category n keywords [] ∅ []
                {| ddgs := ddgs w;
                   trace := trace w ++ [ELogCategory category] |}
                seen_agrees_empty) as (seen' & tr1 & Hrun1').
    rewrite Hrun1 in Hrun1'. injection Hrun1' as -> _. rewrite Hrun1.
    simpl. destruct (ask_keywords (ddgs w) keywords n) as [answers s1];
      simpl in *.
    match goal with
    | |- context [WebSearch.topics_loop ddgs_news n rest ?d ?w1] =>
        destruct (IH d w1) as (res & evs & -> & Hs)
    end. simpl in *.
    destruct (ask_topics s1 rest n) as [others s2]; simpl in *.
    exists res, ([ELogCategory category] ++ evs1
                 ++ [ELogUnique category
                       (length (with_category category <$>
                          first_occurrences [] (returned_articles answers)))]
                 ++ evs).
    split; [by rewrite <- !app_assoc|].
    rewrite !slept_app, Hs1, Hs. simpl.
    unfold successful_results. rewrite omap_app, length_app.
    by rewrite replicate_add.
Qed.

(** X10. The aggregator pauses one second after each provider call that
    succeeded and not at all after a call that failed: over a run it has
    slept as many seconds as calls have succeeded. *)
Theorem search_multiple_topics_pauses topics n (w : world) :
  ∃ res evs,
    search_multiple_topics topics n w =
      (inr res, {| ddgs := (ask_topics (ddgs w) topics n).2;
                   trace := trace w ++ evs |})
    ∧ slept evs =
        replicate
          (length (successful_results
                     (concat (ask_topics (ddgs w) topics n).1.*2)))
          1.
Proof.
  destruct (topics_loop_slept n topics [] w) as (res & evs & Hrun & Hs).
  destruct (search_multiple_topics_run ddgs_news topics n w) as (tr & Hrun').
  unfold WebSearch.search_multiple_topics in *.
  rewrite Hrun in Hrun'. injection Hrun' as -> _.
  by eexists _, evs.
Qed.

(** *** What a category's list holds *)

(** The entry of the [i]-th topic, with the calls made for it. *)
Lemma search_multiple_topics_entry topics n (w : world) :
  NoDup topics.*1 →
  ∃ res w',
    search_multiple_topics topics n w = (inr res, w')
    ∧ ∀ i category keywords,
        topics !! i = Some (category, keywords) →
        ∃ calls,
          (ask_topics (ddgs w) topics n).1 !! i = Some (category, calls)
          ∧ calls.*1 = keywords
          ∧ dict_getitem res category
            = Some (with_category category
                      <$> first_occurrences [] (returned_articles calls)).
Proof.
  intros Hnd.
  destruct (search_multiple_topics_run_NoDup ddgs_news topics n w Hnd)
    as (tr & ->).
  do 2 eexists. split; [done|].
  intros i category keywords Hi.
  pose proof (ask_topics_entries ddgs_news (ddgs w) topics n) as Hent.
  destruct (Forall2_lookup_l _ _ _ _ _ Hent Hi)
    as ([category' calls] & Hcalls & Hc & Hq). simpl in *. subst category'.
  exists calls. split; [done|]. split; [done|].
  apply dict_getitem_lookup with i;
    [by rewrite ask_topics_categories|].
  by rewrite list_lookup_fmap, Hcalls.
Qed.

Lemma returned_articles_origin calls a :
  a ∈ returned_articles calls →
  ∃ q result, q ∈ calls.*1 ∧ a = make_article q result.
Proof.
  unfold returned_articles. intros Hin.
  apply elem_of_concat in Hin as (arts & Ha & Harts).
  apply list_elem_of_fmap in Harts as ([q answer] & -> & Hcall).
  unfold articles_of_call in Ha; simpl in Ha.
  destruct answer as [e|results]; [by apply elem_of_nil in Ha|].
  apply list_elem_of_fmap in Ha as (result & -> & _).
  exists q, result. split; [|done].
  apply list_elem_of_fmap. by exists (q, inr results).
Qed.

Lemma dom_make_article query result :
  dom (make_article query result) =
    ({[ "title"; "link"; "snippet"; "source"; "date"; "image";
        "query_category" ]} : gset string).
Proof.
  unfold make_article. rewrite dom_list_to_map_L. simpl. set_solver.
Qed.

(** X11. Every article of the result has exactly the eight keys [title],
    [link], [snippet], [source], [date], [image], [query_category] and
    [category], and its [query_category] is one of the keywords of the
    category it is listed under. *)
Theorem search_multiple_topics_article_shape topics n (w : world) :
  NoDup topics.*1 →
  ∃ res w',
    search_multiple_topics topics n w = (inr res, w')
    ∧ ∀ i category keywords,
        topics !! i = Some (category, keywords) →
        ∃ articles,
          dict_getitem res category = Some articles
          ∧ Forall (λ a : strdict,
              dom a = article_keys
              ∧ ∃ q, q ∈ keywords ∧ a !! "query_category" = Some q)
            articles.
Proof.
  intros Hnd.
  destruct (search_multiple_topics_entry topics n w Hnd)
    as (res & w' & Hrun & Hres).
  exists res, w'. split; [done|].
  intros i category keywords Hi.
  destruct (Hres i category keywords Hi) as (calls & _ & Hq & ->).
  eexists. split; [done|].
  apply Forall_fmap, Forall_forall. intros a Hin. simpl.
  eapply elem_of_sublist in Hin; [|apply first_occurrences_sublist].
  apply returned_articles_origin in Hin as (q & result & Hqin & ->).
  split.
  - unfold with_category. rewrite dom_insert_L, dom_make_article.
    unfold article_keys. set_solver.
  - exists q. split; [by rewrite <- Hq|].
    unfold with_category. rewrite lookup_insert_ne by done.
    by destruct (make_article_fields q result) as (_&_&_&_&_&_&?&_).
Qed.

Lemma first_occurrences_link_set articles : ∀ earlier l,
  l ∈ link <$> first_occurrences earlier articles ↔
  l ≠ "" ∧ (l ∉ earlier) ∧ l ∈ link <$> articles.
Proof.
  induction articles as [|a arts IH]; intros earlier l.
  { simpl. split; [by intros ?%elem_of_nil|].
    by intros (_ & _ & ?%elem_of_nil). }
  assert (l ∈ link <$> first_occurrences (earlier ++ [link a]) arts ↔
          l ≠ "" ∧ (l ∉ earlier) ∧ l ≠ link a ∧ l ∈ link <$> arts) as Hrest.
  { rewrite IH, elem_of_app, list_elem_of_singleton. naive_solver. }
  cbn [first_occurrences]. rewrite (fmap_cons link a arts), elem_of_cons.
  case_decide as Hk.
  - rewrite fmap_cons, elem_of_cons, Hrest.
    destruct (decide (l = link a)) as [->|]; naive_solver.
  - rewrite Hrest.
    destruct (decide (l = link a)) as [->|]; naive_solver.
Qed.

(** X12. No link is lost: the links listed under a category are exactly the
    non-empty links among the articles returned for its keywords, and the
    list is no longer than what was returned. *)
Theorem search_multiple_topics_links_complete topics n (w : world) :
  NoDup topics.*1 →
  ∃ res w',
    search_multiple_topics topics n w = (inr res, w')
    ∧ ∀ i category keywords,
        topics !! i = Some (category, keywords) →
        ∃ calls articles,
          (ask_topics (ddgs w) topics n).1 !! i = Some (category, calls)
          ∧ dict_getitem res category = Some articles
          ∧ (∀ l, l ∈ link <$> articles ↔
                  l ≠ "" ∧ l ∈ link <$> returned_articles calls)
          ∧ (length articles ≤ length (returned_articles calls))%nat.
Proof.
  intros Hnd.
  destruct (search_multiple_topics_entry topics n w Hnd)
    as (res & w' & Hrun & Hres).
  exists res, w'. split; [done|].
  intros i category keywords Hi.
  destruct (Hres i category keywords Hi) as (calls & Hcalls & _ & ->).
  eexists calls, _. split; [done|]. split; [done|]. split.
  - intros l. rewrite <- list_fmap_compose.
    rewrite (list_fmap_ext _ link
               (first_occurrences [] (returned_articles calls)))
      by (intros; apply link_with_category).
    rewrite first_occurrences_link_set. split; [naive_solver|].
    intros [? ?]. split; [done|]. split; [by intros ?%elem_of_nil|done].
  - rewrite length_fmap. apply sublist_length, first_occurrences_sublist.
Qed.

Lemma first_occurrences_id articles : ∀ earlier,
  NoDup (earlier ++ (link <$> articles)) →
  Forall (λ a, link a ≠ "") articles →
  first_occurrences earlier articles = articles.
Proof.
  induction articles as [|a arts IH]; intros earlier Hnd Hne; simpl; [done|].
  apply Forall_cons in Hne as [Ha Hne].
  rewrite fmap_cons in Hnd.
  rewrite decide_True; last first.
  { split; [done|]. intros Hin.
    apply NoDup_app in Hnd as (_ & Hdis & _). apply (Hdis _ Hin). by left. }
  rewrite IH; [done| |done].
  by rewrite <- app_assoc.
Qed.

(** X13. When the articles returned for a category all have a link and no two
    of them share one, the category gets all of them, in the order
    returned, each with its category written in. *)
Theorem search_multiple_topics_keeps_distinct topics n (w : world) :
  NoDup topics.*1 →
  ∃ res w',
    search_multiple_topics topics n w = (inr res, w')
    ∧ ∀ i category keywords,
        topics !! i = Some (category, keywords) →
        ∃ calls,
          (ask_topics (ddgs w) topics n).1 !! i = Some (category, calls)
          ∧ (NoDup (link <$> returned_articles calls) →
             Forall (λ a, link a ≠ "") (returned_articles calls) →
             dict_getitem res category
             = Some (with_category category <$> returned_articles calls)).
Proof.
  intros Hnd.
  destruct (search_multiple_topics_entry topics n w Hnd)
    as (res & w' & Hrun & Hres).
  exists res, w'. split; [done|].
  intros i category keywords Hi.
  destruct (Hres i category keywords Hi) as (calls & Hcalls & _ & ->).
  exists calls. split; [done|]. intros Hdistinct Hlinks.
  by rewrite first_occurrences_id.
Qed.

Lemma returned_articles_length calls (m : nat) :
  Forall (λ call : string * (exn + list strdict),
            ∀ results, call.2 = inr results → (length results ≤ m)%nat)
    calls →
  (length (returned_articles calls) ≤ length calls * m)%nat.
Proof.
  unfold returned_articles.
  induction 1 as [|[q answer] cs Hc _ IH]; [simpl; lia|].
  rewrite fmap_cons. cbn [concat]. rewrite length_app.
  unfold articles_of_call at 1. simpl in *.
  destruct answer as [e|results]; simpl.
  - lia.
  - rewrite length_fmap. specialize (Hc results eq_refl). lia.
Qed.

Lemma ask_keywords_bounded s keywords n (m : nat) :
  (∀ s q period results s',
     ddgs_news s q "us-en" "moderate" period n = (inr results, s') →
     (length results ≤ m)%nat) →
  Forall (λ call : string * (exn + list strdict),
            ∀ results, call.2 = inr results → (length results ≤ m)%nat)
    (ask_keywords s keywords n).1.
Proof.
  intros Hbound. revert s.
  induction keywords as [|k ks IH]; intros s; simpl; [constructor|].
  destruct (ddgs_news s k "us-en" "moderate" "w" n) as [answer s1] eqn:Hcall.
  specialize (IH s1). destruct (ask_keywords s1 ks n) as [answers s2].
  simpl in *. constructor; [|done].
  simpl. intros results ->. by eapply Hbound.
Qed.

Lemma ask_topics_bounded s topics n (m : nat) :
  (∀ s q period results s',
     ddgs_news s q "us-en" "moderate" period n = (inr results, s') →
     (length results ≤ m)%nat) →
  Forall (λ entry,
      Forall (λ call : string * (exn + list strdict),
                ∀ results, call.2 = inr results → (length results ≤ m)%nat)
        entry.2)
    (ask_topics s topics n).1.
Proof.
  intros Hbound. revert s.
  induction topics as [|[category keywords] rest IH]; intros s; simpl;
    [constructor|].
  pose proof (ask_keywords_bounded s keywords n m Hbound) as Hk.
  destruct (ask_keywords s keywords n) as [answers s1].
  specialize (IH s1). destruct (ask_topics s1 rest n) as [others s2].
  simpl in *. by constructor.
Qed.

(** X14. If the provider never returns more than [max_results] results, a
    category with [k] keywords gets at most [k * results_per_query]
    articles. *)
Theorem search_multiple_topics_size_bound topics n (w : world) :
  NoDup topics.*1 →
  (∀ s q period results s',
     ddgs_news s q "us-en" "moderate" period n = (inr results, s') →
     (length results ≤ Z.to_nat n)%nat) →
  ∃ res w',
    search_multiple_topics topics n w = (inr res, w')
    ∧ ∀ i category keywords,
        topics !! i = Some (category, keywords) →
        ∃ articles,
          dict_getitem res category = Some articles
          ∧ (length articles ≤ length keywords * Z.to_nat n)%nat.
Proof.
  intros Hnd Hbound.
  destruct (search_multiple_topics_entry topics n w Hnd)
    as (res & w' & Hrun & Hres).
  exists res, w'. split; [done|].
  intros i category keywords Hi.
  destruct (Hres i category keywords Hi) as (calls & Hcalls & Hq & ->).
  eexists. split; [done|].
  rewrite length_fmap.
  etrans; [apply sublist_length, first_occurrences_sublist|].
  pose proof (ask_topics_bounded (ddgs w) topics n _ Hbound) as Hall.
  rewrite Forall_forall in Hall.
  specialize (Hall _ (list_elem_of_lookup_2 _ _ _ Hcalls)). simpl in Hall.
  rewrite <- Hq, length_fmap. by apply returned_articles_length.
Qed.

End search_more.

(** * Web search and verification search *)

Section web_search.
Import WebSearch WebSearchMore.
Context {S : Type}.
Variable ddgs_text :
  S → ∀ (keywords region safesearch : string) (max_results : Z),
    (exn + list strdict) * S.

Abbreviation search_web := (search_web ddgs_text).
Abbreviation search_for_verification := (search_for_verification ddgs_text).
Abbreviation web_world := (@web_world S).

Lemma collect_items_fmap results :
  collect_items results = make_item <$> results.
Proof.
  unfold collect_items.
  enough (∀ acc, foldl (λ items result, items ++ [make_item result])
                   acc results = acc ++ (make_item <$> results)) as H
    by apply H.
  induction results as [|r rs IH]; intros acc; simpl.
  - by rewrite app_nil_r.
  - rewrite IH. by rewrite <- app_assoc.
Qed.

Lemma search_web_run query n (w : web_world) :
  search_web query n w =
    match ddgs_text (web_ddgs w) query "us-en" "moderate" n with
    | (inr results, s') =>
        (inr (make_item <$> results),
         {| web_ddgs := s'; web_trace := web_trace w ++ [WSleep 1] |})
    | (inl e, s') =>
        (inr [],
         {| web_ddgs := s';
            web_trace := web_trace w ++ [WLogWebSearchFailed e] |})
    end.
Proof.
  unfold WebSearchMore.search_web, Py.try_except, Py.bind, call_text,
    web_emit, Py.modify, Py.ret.
  destruct (ddgs_text _ _ _ _ _) as [[e|results] s']; simpl; [done|].
  by rewrite collect_items_fmap.
Qed.

(** X15. [search_web] always returns a list. When the provider raises it is
    the empty list, the error is logged and nothing is slept; otherwise
    it holds one item per provider result, in order and with nothing
    dropped, each with exactly the keys [title], [link] (the result's
    [href]) and [snippet] (its [body]), an absent field being the empty
    string, and one second has been slept. *)
Theorem search_web_total query n (w : web_world) :
  ∃ items w',
    search_web query n w = (inr items, w')
    ∧ match (ddgs_text (web_ddgs w) query "us-en" "moderate" n).1 with
      | inl e =>
          items = []
          ∧ web_trace w' = web_trace w ++ [WLogWebSearchFailed e]
      | inr results =>
          Forall2 (λ (result item : strdict),
              item !! "title" = Some (default "" (result !! "title"))
              ∧ item !! "link" = Some (default "" (result !! "href"))
              ∧ item !! "snippet" = Some (default "" (result !! "body"))
              ∧ dom item = ({[ "title"; "link"; "snippet" ]} : gset string))
            results items
          ∧ web_trace w' = web_trace w ++ [WSleep 1]
      end.
Proof.
  rewrite search_web_run.
  destruct (ddgs_text _ _ _ _ _) as [[e|results] s']; simpl.
  - by eexists _, _.
  - eexists _, _. split; [done|]. split; [|done].
    apply Forall2_fmap_r, Forall_Forall2_diag, Forall_forall.
    intros result _. unfold make_item, dict_get, default.
    repeat split; by simplify_map_eq.
Qed.

(** X16. [search_for_verification] asks the provider's text search once, for
    the claim followed by [" source official announcement"], and returns
    what [search_web] makes of the answer: an item per result, or the
    empty list when the provider raises. *)
Theorem search_for_verification_query claim n (w : web_world) :
  ∃ items w',
    search_for_verification claim n w = (inr items, w')
    ∧ match ddgs_text (web_ddgs w)
              (claim +:+ " source official announcement")
              "us-en" "moderate" n with
      | (inl _, s') => items = [] ∧ web_ddgs w' = s'
      | (inr results, s') =>
          items = make_item <$> results ∧ web_ddgs w' = s'
      end.
Proof.
  unfold WebSearchMore.search_for_verification. rewrite search_web_run.
  destruct (ddgs_text _ _ _ _ _) as [[e|results] s']; by eexists _, _.
Qed.

End web_search.

(** * Gathering the news *)

Section gather_news.
Import WebSearch Orchestrator.
Context {S : Type}.
Variable ddgs_news :
  S → ∀ (keywords region safesearch timelimit : string) (max_results : Z),
    (exn + list strdict) * S.

Lemma topics_of_NoDup search : NoDup (topics_of search).*1.
Proof.
  simpl. apply NoDup_cons. split.
  { rewrite !elem_of_cons, elem_of_nil. intros [?|[?|?]]; done. }
  apply NoDup_cons. split.
  { rewrite !elem_of_cons, elem_of_nil. intros [?|?]; done. }
  apply NoDup_singleton.
Qed.

Lemma category_result_invariants
    (entry : string * list (string * (exn + list strdict))) :
  NoDup (link <$> (category_result entry).2)
  ∧ Forall (λ a, link a ≠ "" ∧ a !! "category" = Some entry.1)
      (category_result entry).2.
Proof.
  destruct entry as [category calls]. unfold category_result; simpl. split.
  - rewrite <- list_fmap_compose.
    rewrite (list_fmap_ext _ link
               (first_occurrences [] (returned_articles calls)))
      by (intros; apply link_with_category).
    apply first_occurrences_NoDup.
  - apply Forall_fmap.
    eapply Forall_impl; [apply (first_occurrences_links [])|].
    simpl. intros a [Hne _]. rewrite link_with_category. split; [done|].
    unfold with_category. by rewrite lookup_insert_eq.
Qed.


End gather_news.

(** * The further theorems at concrete inputs *)

Section more_witnesses.
Import Examples MoreExamples.

Lemma generate_without_budget_witness :
  GitHubModels.generate (constant_backend 200 (Some ok_body)) no_text
    no_budget_client example_request (GitHubModels.World tt []) =
    (inl (GitHubModels.RuntimeError
            "API rate limit exceeded after 0 retries"),
     GitHubModels.World tt []).
Proof.
  apply (generate_without_budget (constant_backend 200 (Some ok_body))
           no_text no_budget_client example_request
           (GitHubModels.World tt [])).
  simpl. lia.
Defined.

Lemma generate_recovers_after_rate_limits_witness :
  ∃ evs,
    GitHubModels.generate scripted_backend no_text example_client
      example_request
      (GitHubModels.World
         [rate_limited; rate_limited;
          inr (GitHubModels.Response 200 (Some ok_body))] []) =
      (inr (GitHubModels.JStr "OK"), GitHubModels.World [] ([] ++ evs))
    ∧ length (GitHubModels.posts evs) = 3%nat
    ∧ GitHubModels.sleeps evs = [10; 20].
Proof.
  apply (generate_recovers_after_rate_limits scripted_backend no_text
           example_client example_request 2
           (GitHubModels.World
              [rate_limited; rate_limited;
               inr (GitHubModels.Response 200 (Some ok_body))] [])
           [inr (GitHubModels.Response 200 (Some ok_body))]
           (GitHubModels.Response 200 (Some ok_body)) []
           (GitHubModels.JStr "OK")).
  - simpl. lia.
  - simpl. lia.
  - simpl. repeat (eexists _, _; split; [reflexivity|split; [reflexivity|]]).
    reflexivity.
  - reflexivity.
  - reflexivity.
  - reflexivity.
Defined.

Lemma generate_other_http_error_witness :
  GitHubModels.generate (constant_backend 500 None) no_text example_client
    example_request (GitHubModels.World tt []) =
    (inl (GitHubModels.RuntimeError "API error: "),
     GitHubModels.World tt
       [GitHubModels.post_event example_client
          (GitHubModels.build_payload example_client example_request)]).
Proof.
  apply (generate_other_http_error (constant_backend 500 None) no_text
           example_client example_request 0 (GitHubModels.World tt []) tt
           (GitHubModels.Response 500 None) tt);
    simpl; (lia || reflexivity || discriminate).
Defined.

Lemma generate_transport_failure_witness :
  ∃ evs,
    GitHubModels.generate scripted_backend no_text example_client
      example_request
      (GitHubModels.World [rate_limited; inl GitHubModels.Timeout] []) =
      (inl (GitHubModels.TransportError GitHubModels.Timeout),
       GitHubModels.World [] ([] ++ evs))
    ∧ length (GitHubModels.posts evs) = 2%nat.
Proof.
  destruct (generate_transport_failure scripted_backend no_text
              example_client example_request 1
              (GitHubModels.World [rate_limited; inl GitHubModels.Timeout] [])
              [inl GitHubModels.Timeout] GitHubModels.Timeout [])
    as (evs & Hrun & _ & Hposts & _).
  - simpl. lia.
  - simpl. lia.
  - simpl. eexists _, _. split; [reflexivity|split; reflexivity].
  - reflexivity.
  - exists evs. split; [exact Hrun|exact Hposts].
Defined.

Lemma generate_failure_after_rate_limits_witness :
  ∃ e evs,
    GitHubModels.generate scripted_backend no_text example_client
      example_request
      (GitHubModels.World
         [rate_limited; inr (GitHubModels.Response 401 None)] []) =
      (inl e, GitHubModels.World [] ([] ++ evs))
    ∧ GitHubModels.error_kind e = GitHubModels.InvalidCredentials
    ∧ GitHubModels.sleeps evs = [10].
Proof.
  destruct (generate_failure_after_rate_limits scripted_backend no_text
              example_client example_request 1
              (GitHubModels.World
                 [rate_limited; inr (GitHubModels.Response 401 None)] [])
              [inr (GitHubModels.Response 401 None)]
              (GitHubModels.Response 401 None) [])
    as (e & evs & Hrun & Hkind & _ & Hsleeps).
  - simpl. lia.
  - simpl. lia.
  - simpl. eexists _, _. split; [reflexivity|split; reflexivity].
  - reflexivity.
  - left. reflexivity.
  - exists e, evs. split; [exact Hrun|]. split; [exact Hkind|exact Hsleeps].
Defined.

Lemma generate_total_backoff_witness :
  ∃ e b' evs,
    GitHubModels.generate (constant_backend 429 None) no_text
      example_client example_request (GitHubModels.World tt []) =
      (inl e, GitHubModels.World b' ([] ++ evs))
    ∧ ClientMore.total_sleep evs = 60.
Proof.
  apply (generate_total_backoff (constant_backend 429 None) no_text
           example_client example_request (GitHubModels.World tt [])).
  - simpl. lia.
  - simpl. lia.
  - simpl. repeat (eexists _, _; split; [reflexivity|split; [reflexivity|]]).
    exact I.
Defined.

Lemma testConnection_reports_content_witness :
  (ClientMore.testConnection (constant_backend 200 (Some ok_body)) no_text
     example_client
     (ClientMore.TestWorld (GitHubModels.World tt []) [])).1 = inr true.
Proof.
  destruct (testConnection_reports_content
              (constant_backend 200 (Some ok_body)) no_text example_client
              (ClientMore.TestWorld (GitHubModels.World tt []) [])
              (GitHubModels.Response 200 (Some ok_body)) tt
              (GitHubModels.JStr "OK")) as (Hrun & _).
  - simpl. lia.
  - reflexivity.
  - reflexivity.
  - reflexivity.
  - rewrite Hrun. reflexivity.
Defined.

Lemma testConnection_rejected_witness :
  (ClientMore.testConnection (constant_backend 401 None) no_text
     example_client
     (ClientMore.TestWorld (GitHubModels.World tt []) [])).1 = inr false.
Proof.
  destruct (testConnection_rejected (constant_backend 401 None) no_text
              example_client
              (ClientMore.TestWorld (GitHubModels.World tt []) [])
              (GitHubModels.Response 401 None) tt) as (e & Hrun & _).
  - simpl. lia.
  - reflexivity.
  - left. reflexivity.
  - rewrite Hrun. reflexivity.
Defined.

Lemma search_multiple_topics_article_shape_witness :
  ∃ res w' articles,
    WebSearch.search_multiple_topics example_provider example_topics 8
      (WebSearch.World 0%nat []) = (inr res, w')
    ∧ WebSearch.dict_getitem res "catA" = Some articles
    ∧ Forall (λ a : gmap string string, dom a = WebSearchMore.article_keys)
        articles.
Proof.
  destruct (search_multiple_topics_article_shape example_provider
              example_topics 8 (WebSearch.World 0%nat [])
              example_topics_NoDup) as (res & w' & Hrun & Hres).
  destruct (Hres 0%nat "catA" ["q1"; "q2"] eq_refl) as (articles & Hget & Hall).
  exists res, w', articles. split; [exact Hrun|]. split; [exact Hget|].
  eapply Forall_impl; [exact Hall|]. intros a [Hdom _]. exact Hdom.
Defined.

Lemma search_multiple_topics_links_complete_witness :
  ∃ res w' articles,
    WebSearch.search_multiple_topics example_provider example_topics 8
      (WebSearch.World 0%nat []) = (inr res, w')
    ∧ WebSearch.dict_getitem res "catA" = Some articles
    ∧ "z" ∈ WebSearch.link <$> articles.
Proof.
  destruct (search_multiple_topics_links_complete example_provider
              example_topics 8 (WebSearch.World 0%nat [])
              example_topics_NoDup) as (res & w' & Hrun & Hres).
  destruct (Hres 0%nat "catA" ["q1"; "q2"] eq_refl)
    as (calls & articles & Hcalls & Hget & Hlinks & _).
  exists res, w', articles. split; [exact Hrun|]. split; [exact Hget|].
  apply Hlinks. split; [discriminate|].
  simpl in Hcalls. injection Hcalls as <-.
  vm_compute. do 3 right. left.
Defined.

Lemma search_multiple_topics_keeps_distinct_witness :
  ∃ res w',
    WebSearch.search_multiple_topics example_provider [("catA", ["q1"])] 8
      (WebSearch.World 0%nat []) = (inr res, w')
    ∧ WebSearch.dict_getitem res "catA"
      = Some [WebSearch.with_category "catA"
                (WebSearch.make_article "q1" {["url" := "x"]});
              WebSearch.with_category "catA"
                (WebSearch.make_article "q1"
                   {["url" := "y"; "title" := "first"]})].
Proof.
  destruct (search_multiple_topics_keeps_distinct example_provider
              [("catA", ["q1"])] 8 (WebSearch.World 0%nat [])
              (NoDup_singleton "catA")) as (res & w' & Hrun & Hres).
  destruct (Hres 0%nat "catA" ["q1"] eq_refl) as (calls & Hcalls & Hget).
  exists res, w'. split; [exact Hrun|].
  simpl in Hcalls. injection Hcalls as <-.
  apply Hget.
  - vm_compute. apply NoDup_cons. split.
    + intros Hin. apply list_elem_of_singleton in Hin. discriminate.
    + apply NoDup_singleton.
  - repeat (apply Forall_cons; split); [discriminate..|apply Forall_nil_2].
Defined.

Lemma example_provider_bounded :
  ∀ s q period results s',
    example_provider s q "us-en" "moderate" period 8 = (inr results, s') →
    (length results ≤ Z.to_nat 8)%nat.
Proof.
  intros s q period results s'. unfold example_provider.
  destruct (String.eqb q "q1"); [intros [= <- _]; simpl; lia|].
  destruct (String.eqb q "q2"); [intros [= <- _]; simpl; lia|].
  discriminate.
Defined.

Lemma search_multiple_topics_size_bound_witness :
  ∃ res w' articles,
    WebSearch.search_multiple_topics example_provider example_topics 8
      (WebSearch.World 0%nat []) = (inr res, w')
    ∧ WebSearch.dict_getitem res "catA" = Some articles
    ∧ (length articles ≤ 16)%nat.
Proof.
  destruct (search_multiple_topics_size_bound example_provider
              example_topics 8 (WebSearch.World 0%nat [])
              example_topics_NoDup example_provider_bounded)
    as (res & w' & Hrun & Hres).
  destruct (Hres 0%nat "catA" ["q1"; "q2"] eq_refl) as (articles & Hget & Hlen).
  exists res, w', articles. split; [exact Hrun|]. split; [exact Hget|].
  exact Hlen.
Defined.

End more_witnesses.

(** * Properties of the agents *)

Section agents_properties.
Import Agents.
Context {B : Type}.
Variable post :
  B → GitHubModels.payload
    → (GitHubModels.transport_error + GitHubModels.response) * B.
Variable str_HTTPError : GitHubModels.response → string.
Variable str_exn : GitHubModels.exn → string.

Abbreviation agent_generate := (Agents.generate post str_HTTPError).
Abbreviation run_loop := (Agents.run_loop post str_HTTPError str_exn).
Abbreviation run := (Agents.run post str_HTTPError str_exn).
Abbreviation agent_world := (@agent_world B).

(** The request an agent's call sends. *)
Lemma agent_generate_run self prompt systemPrompt (aw : agent_world) :
  ∃ res b' evs logs,
    agent_generate self prompt systemPrompt aw =
      (res,
       {| llm := {| GitHubModels.backend := b';
                    GitHubModels.trace :=
                      GitHubModels.trace (llm aw) ++ evs |};
          agent_log := agent_log aw ++ logs |})
    ∧ (length (GitHubModels.posts evs)
       ≤ Z.to_nat (GitHubModels.maxRetries (client self)))%nat
    ∧ Forall (λ sent,
        sent = {| GitHubModels.p_model := GitHubModels.model (client self);
                  GitHubModels.p_messages :=
                    GitHubModels.build_messages
                      {| GitHubModels.prompt := prompt;
                         GitHubModels.systemPrompt := systemPrompt;
                         GitHubModels.maxTokens := maxTokens self;
                         GitHubModels.temperature := temperature self |};
                  GitHubModels.p_max_tokens := maxTokens self;
                  GitHubModels.p_temperature := temperature self |})
        (GitHubModels.posts evs)
    ∧ match res with
      | inr _ => logs = []
      | inl e => logs = [LogGenerationFailed e]
      end.
Proof.
  unfold Agents.generate, Py.try_except, call_client, GitHubModels.generate.
  destruct (attempt_loop_within_budget post str_HTTPError (client self)
              (GitHubModels.build_payload (client self)
                 {| GitHubModels.prompt := prompt;
                    GitHubModels.systemPrompt := systemPrompt;
                    GitHubModels.maxTokens := maxTokens self;
                    GitHubModels.temperature := temperature self |})
              (Py.range (GitHubModels.maxRetries (client self))) (llm aw))
    as (res & b' & evs & -> & Hn & Hall & _).
  unfold Py.range in Hn. rewrite length_fmap, length_seq in Hn.
  destruct res as [e|v].
  - exists (inl e), b', evs, [LogGenerationFailed e]. done.
  - exists (inr v), b', evs, []. by rewrite app_nil_r.
Qed.

Lemma system_prompt_truthy : Py.truthy ResearchAgent_systemPrompt = true.
Proof. reflexivity. Qed.

(** The loop over the categories: what it stores and what it sends. *)
Lemma run_loop_spec self items : ∀ findings (aw : agent_world),
  ∃ entries b' evs logs,
    run_loop self items findings aw =
      (inr (foldl store_finding findings entries),
       {| llm := {| GitHubModels.backend := b';
                    GitHubModels.trace :=
                      GitHubModels.trace (llm aw) ++ evs |};
          agent_log := agent_log aw ++ logs |})
    ∧ Forall2 (finding_for str_exn) items entries
    ∧ (length (GitHubModels.posts evs)
       ≤ Z.to_nat (GitHubModels.maxRetries (client self))
         * analysed_categories items)%nat
    ∧ Forall (λ sent,
        GitHubModels.p_model sent = GitHubModels.model (client self)
        ∧ GitHubModels.p_max_tokens sent = maxTokens self
        ∧ GitHubModels.p_temperature sent = temperature self
        ∧ head (GitHubModels.p_messages sent)
          = Some (GitHubModels.Message "system" ResearchAgent_systemPrompt))
        (GitHubModels.posts evs).
Proof.
  induction items as [|[category articles] rest IH]; intros findings aw.
  - exists [], (GitHubModels.backend (llm aw)), [], [].
    simpl. rewrite !app_nil_r. destruct aw as [[b tr] lg].
    split; [done|]. split; [constructor|]. split; [lia|constructor].
  - destruct articles as [|article articles].
    + destruct (IH (WebSearch.dict_setitem findings category no_news) aw)
        as (entries & b' & evs & logs & Hrun & Hfor & Hn & Hall).
      exists ((category, no_news) :: entries), b', evs, logs.
      split; [exact Hrun|]. split; [by constructor|]. split; [|done].
      unfold analysed_categories in *. simpl. lia.
    + cbn [Agents.run_loop]. unfold Py.bind at 1. unfold Py.try_except.
      unfold Py.bind at 1.
      destruct (agent_generate_run self
                  (analysis_prompt category (article :: articles))
                  (Some ResearchAgent_systemPrompt) aw)
        as (res & b1 & evs1 & logs1 & -> & Hn1 & Hall1 & Hlogs1).
      assert (Forall (λ sent,
          GitHubModels.p_model sent = GitHubModels.model (client self)
          ∧ GitHubModels.p_max_tokens sent = maxTokens self
          ∧ GitHubModels.p_temperature sent = temperature self
          ∧ head (GitHubModels.p_messages sent)
            = Some (GitHubModels.Message "system" ResearchAgent_systemPrompt))
          (GitHubModels.posts evs1)) as Hsent.
      { eapply Forall_impl; [exact Hall1|]. intros sent ->.
        cbn [GitHubModels.p_model GitHubModels.p_max_tokens
             GitHubModels.p_temperature GitHubModels.p_messages].
        unfold GitHubModels.build_messages.
        cbn [GitHubModels.systemPrompt GitHubModels.prompt].
        by rewrite system_prompt_truthy. }
      destruct res as [e|response].
      * unfold Py.bind, log_event, Py.modify, Py.ret. cbn [llm agent_log].
        match goal with
        | |- context [Agents.run_loop _ _ _ self rest ?f ?w] =>
            destruct (IH f w) as (entries & b' & evs & logs & -> & Hfor & Hn & Hall)
        end.
        cbn [llm agent_log GitHubModels.trace GitHubModels.backend].
        exists ((category, analysis_failed (str_exn e)) :: entries), b',
          (evs1 ++ evs), (logs1 ++ [LogFailedToAnalyze category e] ++ logs).
        split; [by rewrite <- !app_assoc|].
        split; [constructor; [|done]; split; [done|]; right; by exists e|].
        rewrite posts_app, length_app.
        split; [|by apply Forall_app].
        unfold analysed_categories in *. simpl. lia.
      * unfold Py.bind, log_event, Py.modify, Py.ret. cbn [llm agent_log].
        match goal with
        | |- context [Agents.run_loop _ _ _ self rest ?f ?w] =>
            destruct (IH f w) as (entries & b' & evs & logs & -> & Hfor & Hn & Hall)
        end.
        cbn [llm agent_log GitHubModels.trace GitHubModels.backend].
        exists ((category, analysed response (article :: articles)) :: entries),
          b', (evs1 ++ evs),
          (logs1 ++ [LogAnalyzed (length (article :: articles)) category]
           ++ logs).
        split; [by rewrite <- !app_assoc|].
        split; [constructor; [|done]; split; [done|]; left; by exists response|].
        rewrite posts_app, length_app.
        split; [|by apply Forall_app].
        unfold analysed_categories in *. simpl. lia.
Qed.

Lemma foldl_store_finding_fresh entries :
  ∀ d : list (string * gmap string pyvalue),
  NoDup (d.*1 ++ entries.*1) → foldl store_finding d entries = d ++ entries.
Proof.
  induction entries as [|[k v] es IH]; intros d Hnd; simpl.
  - by rewrite app_nil_r.
  - unfold store_finding at 2; simpl.
    apply NoDup_app in Hnd as (Hd & Hdis & Hes). simpl in *.
    rewrite dict_setitem_fresh by (intros Hin; eapply Hdis; [done|left]).
    rewrite IH.
    + by rewrite <- app_assoc.
    + rewrite fmap_app; simpl. rewrite <- app_assoc; simpl.
      apply NoDup_app. split; [done|]. split; [|done].
      intros x Hx Hin. by apply (Hdis x).
Qed.

Lemma finding_for_keys items entries :
  Forall2 (finding_for str_exn) items entries → entries.*1 = items.*1.
Proof.
  induction 1 as [|item entry items entries [Hk _] _ IH]; [done|].
  rewrite !fmap_cons. by rewrite Hk, IH.
Qed.




End agents_properties.

Section agent_witnesses.
Import Examples MoreExamples.


Lemma example_raw_articles_NoDup : NoDup example_raw_articles.*1.
Proof.
  simpl. apply NoDup_cons. split; [|apply NoDup_singleton].
  intros Hin. apply list_elem_of_singleton in Hin. discriminate.
Defined.


Example research_run_example :
  (Agents.run (constant_backend 200 (Some ok_body)) no_text (λ _, "")
     example_agent example_raw_articles
     (Agents.AgentWorld (GitHubModels.World tt []) [])).1
  = inr [("mobileCarm",
          Agents.analysed (GitHubModels.JStr "OK")
            [ {["title" := "New C-arm"; "link" := "x"]} ]);
         ("orthopedic", Agents.no_news)].
Proof. vm_compute. reflexivity. Qed.

End agent_witnesses.
